(** * The Gilded Gaze API: a shallow embedding of [main.py] and [schemas.py]

    The storefront backend is a set of FastAPI route handlers over a MongoDB
    database.  Handlers are embedded as computations in a state-and-exception
    monad over the database; pydantic models are records with their field
    constraints as boolean validators; MongoDB collections are lists of
    documents in natural (insertion) order. *)

From Stdlib Require Import ZArith NArith List String Ascii Lia.
From Stdlib Require Import Floats.PrimFloat.
From stdpp Require Import base list strings.
Import ListNotations.

(** ** bson.ObjectId *)

Module Bson.

(** An [ObjectId] is its binary value, a sequence of bytes. *)
Definition ObjectId : Type := list N.

Definition hexdigits : list ascii := list_ascii_of_string "0123456789abcdef".

Definition hex_of_byte (b : N) : list ascii :=
  [ nth (N.to_nat (b / 16)) hexdigits "0"%char;
    nth (N.to_nat (b mod 16)) hexdigits "0"%char ].

(** [str(oid)] is [binascii.hexlify(oid.binary).decode()]: lower-case hex. *)
Definition str (oid : ObjectId) : string :=
  string_of_list_ascii (flat_map hex_of_byte oid).

(** Value of a hexadecimal digit, in either case. *)
Definition digit_value (c : ascii) : option N :=
  let n := N_of_ascii c in
  if ((48 <=? n) && (n <=? 57))%N then Some (n - 48)%N
  else if ((97 <=? n) && (n <=? 102))%N then Some (n - 87)%N
  else if ((65 <=? n) && (n <=? 70))%N then Some (n - 55)%N
  else None.

Definition is_space (c : ascii) : bool :=
  let n := N_of_ascii c in
  ((n =? 32) || ((9 <=? n) && (n <=? 13)))%N.

(** [bytes.fromhex]: white space between bytes is skipped, every byte is
    two hexadecimal digits, upper or lower case. *)
Fixpoint fromhex (s : list ascii) : option (list N) :=
  match s with
  | [] => Some []
  | c :: s' =>
      if is_space c then fromhex s'
      else match digit_value c, s' with
           | Some top, c' :: s'' =>
               match digit_value c' with
               | Some bot => cons (top * 16 + bot)%N <$> fromhex s''
               | None => None
               end
           | _, _ => None
           end
  end.

(** [ObjectId(s)] for a string [s]: 24 characters that [bytes.fromhex]
    accepts; [None] stands for [InvalidId]. *)
Definition of_str (s : string) : option ObjectId :=
  if decide (String.length s = 24%nat)
  then fromhex (list_ascii_of_string s)
  else None.

(** Big-endian bytes of a number, on [w] bytes. *)
Fixpoint N_to_bytes (w : nat) (n : N) : list N :=
  match w with
  | O => []
  | S w' => N_to_bytes w' (n / 256) ++ [(n mod 256)%N]
  end.

(** [ObjectId()]: the driver generates a 12-byte id that no other document
    has; the generator is a counter kept with the database. *)
Definition generate (counter : N) : ObjectId := N_to_bytes 12 counter.

End Bson.

(** ** JSON / Python values of responses *)

#[warnings="-register-all"]
Inductive value : Type :=
| VNone
| VBool (b : bool)
| VInt (n : Z)
| VFloat (f : float)
| VStr (s : string)
| VList (l : list value)
| VDict (d : list (string * value)).

(** A Python [dict] keeps its keys in insertion order. *)
Definition dict : Type := list (string * value).

Definition opt_str (o : option string) : value :=
  match o with Some s => VStr s | None => VNone end.

Definition opt_float (o : option float) : value :=
  match o with Some f => VFloat f | None => VNone end.

(** ** schemas.py *)

(** A pydantic [BaseModel]: the field constraints checked when an instance is
    built or parsed, and [model_dump]. *)
Class BaseModel (A : Type) : Type := {
  model_validate : A → bool;
  model_dump : A → dict
}.

Module Config.
Record t : Type := {
  limited_edition_active : bool;
  limited_edition_name : string
}.
(** Field defaults: [False] and ["Celestial Gaze"]. *)
Definition default_name : string := "Celestial Gaze".
End Config.

#[export] Instance Config_model : BaseModel Config.t := {
  model_validate _ := true;
  model_dump c :=
    [ ("limited_edition_active"%string, VBool (Config.limited_edition_active c));
      ("limited_edition_name"%string, VStr (Config.limited_edition_name c)) ]
}.

Module Collection.
Record t : Type := {
  handle : string;
  title : string;
  description : option string;
  is_limited : bool
}.
End Collection.

#[export] Instance Collection_model : BaseModel Collection.t := {
  model_validate _ := true;
  model_dump c :=
    [ ("handle"%string, VStr (Collection.handle c));
      ("title"%string, VStr (Collection.title c));
      ("description"%string, opt_str (Collection.description c));
      ("is_limited"%string, VBool (Collection.is_limited c)) ]
}.

Module Product.
Record t : Type := {
  title : string;
  subtitle : option string;
  description : option string;
  price : float;
  compare_at_price : option float;
  collection_handle : string;
  image : option string;
  limited_badge : option string;
  is_bundle : bool
}.
End Product.

#[export] Instance Product_model : BaseModel Product.t := {
  (* price: ge=0; compare_at_price: ge=0 when given *)
  model_validate p :=
    (0 <=? Product.price p)%float
    && match Product.compare_at_price p with
       | Some c => (0 <=? c)%float
       | None => true
       end;
  model_dump p :=
    [ ("title"%string, VStr (Product.title p));
      ("subtitle"%string, opt_str (Product.subtitle p));
      ("description"%string, opt_str (Product.description p));
      ("price"%string, VFloat (Product.price p));
      ("compare_at_price"%string, opt_float (Product.compare_at_price p));
      ("collection_handle"%string, VStr (Product.collection_handle p));
      ("image"%string, opt_str (Product.image p));
      ("limited_badge"%string, opt_str (Product.limited_badge p));
      ("is_bundle"%string, VBool (Product.is_bundle p)) ]
}.

Module Inventory.
Record t : Type := {
  product_id : string;
  quantity : Z
}.
End Inventory.

#[export] Instance Inventory_model : BaseModel Inventory.t := {
  (* quantity: ge=0 *)
  model_validate i := (0 <=? Inventory.quantity i)%Z;
  model_dump i :=
    [ ("product_id"%string, VStr (Inventory.product_id i));
      ("quantity"%string, VInt (Inventory.quantity i)) ]
}.

Module Review.
Record t : Type := {
  product_id : string;
  author : string;
  rating : Z;
  content : string
}.
End Review.

#[export] Instance Review_model : BaseModel Review.t := {
  (* rating: ge=1, le=5 *)
  model_validate r := ((1 <=? Review.rating r) && (Review.rating r <=? 5))%Z;
  model_dump r :=
    [ ("product_id"%string, VStr (Review.product_id r));
      ("author"%string, VStr (Review.author r));
      ("rating"%string, VInt (Review.rating r));
      ("content"%string, VStr (Review.content r)) ]
}.

Module OrderItem.
Record t : Type := {
  product_id : string;
  title : string;
  price : float;
  quantity : Z
}.
End OrderItem.

#[export] Instance OrderItem_model : BaseModel OrderItem.t := {
  (* quantity: ge=1 *)
  model_validate i := (1 <=? OrderItem.quantity i)%Z;
  model_dump i :=
    [ ("product_id"%string, VStr (OrderItem.product_id i));
      ("title"%string, VStr (OrderItem.title i));
      ("price"%string, VFloat (OrderItem.price i));
      ("quantity"%string, VInt (OrderItem.quantity i)) ]
}.

Module Order.
Record t : Type := {
  items : list OrderItem.t;
  subtotal : float;
  email : string;
  name : option string;
  address : option string
}.
End Order.

#[export] Instance Order_model : BaseModel Order.t := {
  model_validate o := forallb model_validate (Order.items o);
  model_dump o :=
    [ ("items"%string, VList (map (λ i, VDict (model_dump i)) (Order.items o)));
      ("subtotal"%string, VFloat (Order.subtotal o));
      ("email"%string, VStr (Order.email o));
      ("name"%string, opt_str (Order.name o));
      ("address"%string, opt_str (Order.address o)) ]
}.

(** ** The database *)

Module Database.
Import Bson.

(** A stored document: the model's fields under a generated [_id].  The
    handlers write documents only through [create_document] from the
    collection's pydantic model and change them only by [$set] and [$inc] on
    fields of that model, so a document is held as the model's record: every
    field is there, with its type, and [inv.get("quantity", 0)] never falls
    back on its default. *)
Record Doc (A : Type) : Type := { _id : ObjectId; body : A }.
Arguments _id {A} _.
Arguments body {A} _.

(** The six collections, each in natural order, and the id generator. *)
Record t : Type := {
  config : list (Doc Config.t);
  collection : list (Doc Collection.t);
  product : list (Doc Product.t);
  inventory : list (Doc Inventory.t);
  review : list (Doc Review.t);
  order : list (Doc Order.t);
  counter : N
}.

(** [db[name]]: a collection of the database, to read and to write. *)
Record Coll (A : Type) : Type := {
  get : t → list (Doc A);
  set : list (Doc A) → t → t
}.
Arguments get {A} _ _.
Arguments set {A} _ _ _.

Definition db_config : Coll Config.t :=
  {| get := config;
     set l db := {| config := l; collection := collection db;
                    product := product db; inventory := inventory db;
                    review := review db; order := order db;
                    counter := counter db |} |}.
Definition db_collection : Coll Collection.t :=
  {| get := collection;
     set l db := {| config := config db; collection := l;
                    product := product db; inventory := inventory db;
                    review := review db; order := order db;
                    counter := counter db |} |}.
Definition db_product : Coll Product.t :=
  {| get := product;
     set l db := {| config := config db; collection := collection db;
                    product := l; inventory := inventory db;
                    review := review db; order := order db;
                    counter := counter db |} |}.
Definition db_inventory : Coll Inventory.t :=
  {| get := inventory;
     set l db := {| config := config db; collection := collection db;
                    product := product db; inventory := l;
                    review := review db; order := order db;
                    counter := counter db |} |}.
Definition db_review : Coll Review.t :=
  {| get := review;
     set l db := {| config := config db; collection := collection db;
                    product := product db; inventory := inventory db;
                    review := l; order := order db;
                    counter := counter db |} |}.
Definition db_order : Coll Order.t :=
  {| get := order;
     set l db := {| config := config db; collection := collection db;
                    product := product db; inventory := inventory db;
                    review := review db; order := l;
                    counter := counter db |} |}.

Definition tick (db : t) : t :=
  {| config := config db; collection := collection db;
     product := product db; inventory := inventory db;
     review := review db; order := order db;
     counter := N.succ (counter db) |}.

Definition empty : t :=
  {| config := []; collection := []; product := []; inventory := [];
     review := []; order := []; counter := 0 |}.

End Database.

(** ** Handlers: state and exceptions *)

(** What a handler can raise.  [HTTPException] is raised by the handlers
    themselves; [RequestValidationError] by FastAPI when the request body does
    not parse into the handler's parameter model; [ValidationError] by
    pydantic when a model is built inside a handler from values that break
    its constraints. *)
Inductive exn : Type :=
| HTTPException (status_code : Z) (detail : string)
| RequestValidationError
| ValidationError.

Inductive result (A : Type) : Type :=
| Return (a : A)
| Raise (e : exn).
Arguments Return {A} _.
Arguments Raise {A} _.

(** The status FastAPI answers with: 200 for a returned value, the status of
    an [HTTPException], 422 for a body that fails request validation, and 500
    for any exception that no handler is registered for. *)
Definition status_code {A} (r : result A) : Z :=
  match r with
  | Return _ => 200
  | Raise (HTTPException s _) => s
  | Raise RequestValidationError => 422
  | Raise ValidationError => 500
  end.

Definition M (A : Type) : Type := Database.t → Database.t * result A.

#[export] Instance M_ret : MRet M := λ A a db, (db, Return a).

#[export] Instance M_bind : MBind M := λ A B f m db,
  match m db with
  | (db', Return a) => f a db'
  | (db', Raise e) => (db', Raise e)
  end.

Definition raise {A} (e : exn) : M A := λ db, (db, Raise e).

(** [for x in l: body x] *)
Fixpoint for_each {A} (l : list A) (body : A → M unit) : M unit :=
  match l with
  | [] => mret tt
  | x :: l' => body x ;; for_each l' body
  end.

(** [[f x for x in l]], for a body with effects *)
Fixpoint for_map {A B} (l : list A) (body : A → M B) : M (list B) :=
  match l with
  | [] => mret []
  | x :: l' => y ← body x; ys ← for_map l' body; mret (y :: ys)
  end.

(** [Model(...)]: building a pydantic model validates its fields. *)
Definition new {A} `{BaseModel A} (x : A) : M A :=
  if model_validate x then mret x else raise ValidationError.

(** A route whose body parameter is the model [A]: FastAPI parses and
    validates the body before the handler runs. *)
Definition route {A B} `{BaseModel A} (handler : A → M B) (payload : A) : M B :=
  if model_validate payload then handler payload
  else raise RequestValidationError.

(** *** pymongo collection methods *)

Section Pymongo.
Import Database.
Context {A : Type}.
Variable c : Coll A.
Variable filter : Doc A → Prop.
Context `{!∀ d, Decision (filter d)}.

(** [db[c].count_documents(filter)] *)
Definition count_documents : M nat :=
  λ db, (db, Return (length (List.filter (λ d, bool_decide (filter d)) (get c db)))).

(** [db[c].find_one(filter)]: the first match in natural order, or [None]. *)
Definition find_one : M (option (Doc A)) :=
  λ db, (db, Return (snd <$> list_find filter (get c db))).

(** [db[c].update_one(filter, update)]: the update is applied to the first
    match, and to nothing when there is none. *)
Definition update_one (update : A → A) : M unit :=
  λ db,
    match list_find filter (get c db) with
    | Some (i, d) =>
        (set c (<[i := {| _id := _id d; body := update (body d) |}]> (get c db)) db,
         Return tt)
    | None => (db, Return tt)
    end.
End Pymongo.

(** *** database.py *)

Section DatabaseHelpers.
Import Database.
Context {A : Type}.

(** Modelled from the spec: [create_document] of [database.py], which is not
    among the sources.  The spec has the store assign each document a
    generated identifier at creation and has the handlers receive that
    identifier; the document is appended to the named collection with the
    model's fields. *)
Definition create_document (c : Coll A) (data : A) : M string :=
  λ db,
    let oid := Bson.generate (counter db) in
    (set c (get c db ++ [{| _id := oid; body := data |}]) (tick db),
     Return (Bson.str oid)).

(** Modelled from the spec: [get_documents] of [database.py], which is not
    among the sources.  The spec has it query a named collection by filter;
    the matches come in store order. *)
Definition get_documents (c : Coll A) (filter : Doc A → Prop)
    `{!∀ d, Decision (filter d)} : M (list (Doc A)) :=
  λ db, (db, Return (List.filter (λ d, bool_decide (filter d)) (get c db))).
End DatabaseHelpers.

(** ** main.py *)

Module Main.
Import Database.

(** [to_oid]: an id string that [ObjectId] refuses is a 400. *)
Definition to_oid (oid : string) : M Bson.ObjectId :=
  match Bson.of_str oid with
  | Some o => mret o
  | None => raise (HTTPException 400 "Invalid ID")
  end.

(** The document as the handler returns it, after
    [doc["_id"] = str(doc["_id"]) if "_id" in doc else None]: every stored
    document has its [_id], which comes first. *)
Definition with_str_id {A} `{BaseModel A} (d : Doc A) : dict :=
  ("_id"%string, VStr (Bson.str (_id d))) :: model_dump (body d).

(** [POST /seed] *)
Definition seed : M value :=
  (* Config *)
  n ← count_documents db_config (λ _, True);
  (if decide (n = 0%nat) then
     c ← new {| Config.limited_edition_active := false;
                Config.limited_edition_name := "Celestial Gaze" |};
     create_document db_config c ;; mret tt
   else mret tt) ;;
  (* Collections *)
  n ← count_documents db_collection (λ _, True);
  (if decide (n = 0%nat) then
     c ← new {| Collection.handle := "core";
                Collection.title := "The Gilded Gaze";
                Collection.description := Some "Quiet luxury for timeless radiance"%string;
                Collection.is_limited := false |};
     create_document db_collection c ;;
     c ← new {| Collection.handle := "celestial-gaze";
                Collection.title := "Celestial Gaze";
                Collection.description := Some "Limited edition celestial hues"%string;
                Collection.is_limited := true |};
     create_document db_collection c ;; mret tt
   else mret tt) ;;
  (* Products example *)
  n ← count_documents db_product (λ _, True);
  (if decide (n = 0%nat) then
     (* Core product *)
     p ← new {| Product.title := "The Classic Heirloom";
                Product.subtitle := Some "Effortless elegance"%string;
                Product.description :=
                  Some "A refined cluster that enhances with subtle grace."%string;
                Product.price := 24.0%float;
                Product.compare_at_price := None;
                Product.collection_handle := "core";
                Product.image := None;
                Product.limited_badge := None;
                Product.is_bundle := false |};
     core_id ← create_document db_product p;
     i ← new {| Inventory.product_id := core_id; Inventory.quantity := 50 |};
     create_document db_inventory i ;;
     (* Celestial products *)
     pids ← for_map
       [ ("The Sapphire Serenity", "composure & poise");
         ("The Amethyst Aura", "intuition & depth");
         ("The Rose Gold Reverie", "warmth & allure") ]%string
       (λ '(title, subtitle),
          p ← new {| Product.title := title;
                     Product.subtitle := Some subtitle;
                     Product.description :=
                       Some "Limited edition celestial-inspired clusters."%string;
                     Product.price := 28.0%float;
                     Product.compare_at_price := Some 32.0%float;
                     Product.collection_handle := "celestial-gaze";
                     Product.image := None;
                     Product.limited_badge := Some "Limited Edition"%string;
                     Product.is_bundle := false |};
          pid ← create_document db_product p;
          i ← new {| Inventory.product_id := pid; Inventory.quantity := 20 |};
          create_document db_inventory i ;;
          mret pid);
     (* Bundle *)
     p ← new {| Product.title := "The Celestial Kit";
                Product.subtitle := Some "Complete limited edition set"%string;
                Product.description :=
                  Some "All three celestial styles in one heirloom-worthy ensemble."%string;
                Product.price := 72.0%float;
                Product.compare_at_price := Some 84.0%float;
                Product.collection_handle := "celestial-gaze";
                Product.image := None;
                Product.limited_badge := Some "Limited Edition"%string;
                Product.is_bundle := true |};
     bundle_id ← create_document db_product p;
     i ← new {| Inventory.product_id := bundle_id; Inventory.quantity := 10 |};
     create_document db_inventory i ;; mret tt
   else mret tt) ;;
  mret (VDict [("status"%string, VStr "seeded")]).

(** [GET /config] *)
Definition get_config : M value :=
  doc ← find_one db_config (λ _, True);
  match doc with
  | None =>
      mret (VDict [ ("limited_edition_active"%string, VBool false);
                    ("limited_edition_name"%string, VStr "Celestial Gaze") ])
  | Some doc => mret (VDict (with_str_id doc))
  end.

Module ConfigToggle.
Record t : Type := { limited_edition_active : bool }.
End ConfigToggle.

#[export] Instance ConfigToggle_model : BaseModel ConfigToggle.t := {
  model_validate _ := true;
  model_dump c :=
    [ ("limited_edition_active"%string, VBool (ConfigToggle.limited_edition_active c)) ]
}.

(** [$set: {"limited_edition_active": b}] *)
Definition set_limited_edition_active (b : bool) (c : Config.t) : Config.t :=
  {| Config.limited_edition_active := b;
     Config.limited_edition_name := Config.limited_edition_name c |}.

(** [POST /config/toggle] *)
Definition toggle_config (payload : ConfigToggle.t) : M value :=
  existing ← find_one db_config (λ _, True);
  match existing with
  | Some existing =>
      update_one db_config (λ d, _id d = _id existing)
        (set_limited_edition_active (ConfigToggle.limited_edition_active payload))
  | None =>
      c ← new {| Config.limited_edition_active :=
                   ConfigToggle.limited_edition_active payload;
                 Config.limited_edition_name := Config.default_name |};
      create_document db_config c ;; mret tt
  end ;;
  mret (VDict [ ("ok"%string, VBool true);
                ("limited_edition_active"%string,
                 VBool (ConfigToggle.limited_edition_active payload)) ]).

(** [inv["quantity"] if inv else 0] *)
Definition quantity_or_0 (inv : option (Doc Inventory.t)) : Z :=
  match inv with
  | Some inv => Inventory.quantity (body inv)
  | None => 0
  end.

(** [GET /collections/{handle}/products] *)
Definition list_products (handle : string) : M value :=
  products ← get_documents db_product
                (λ d, Product.collection_handle (body d) = handle);
  products ← for_map products (λ p,
    (* p["_id"] is already the string here, and str of it the same string *)
    inv ← find_one db_inventory
            (λ d, Inventory.product_id (body d) = Bson.str (_id p));
    mret (VDict (with_str_id p
                   ++ [("inventory"%string, VInt (quantity_or_0 inv))])));
  mret (VList products).

(** [GET /products/{product_id}] *)
Definition get_product (product_id : string) : M value :=
  oid ← to_oid product_id;
  prod ← find_one db_product (λ d, _id d = oid);
  match prod with
  | None => raise (HTTPException 404 "Product not found")
  | Some prod =>
      inv ← find_one db_inventory
              (λ d, Inventory.product_id (body d) = product_id);
      mret (VDict (with_str_id prod
                     ++ [("inventory"%string, VInt (quantity_or_0 inv))]))
  end.

(** [$inc: {"quantity": n}] *)
Definition inc_quantity (n : Z) (i : Inventory.t) : Inventory.t :=
  {| Inventory.product_id := Inventory.product_id i;
     Inventory.quantity := Inventory.quantity i + n |}.

(** [POST /checkout] *)
Definition checkout (order : Order.t) : M value :=
  (* Reduce inventory and create order record *)
  for_each (Order.items order) (λ item,
    inv ← find_one db_inventory
            (λ d, Inventory.product_id (body d) = OrderItem.product_id item);
    match inv with
    | None =>
        raise (HTTPException 400 ("Insufficient stock for " +:+ OrderItem.title item))
    | Some inv =>
        if (Inventory.quantity (body inv) <? OrderItem.quantity item)%Z
        then raise (HTTPException 400
                      ("Insufficient stock for " +:+ OrderItem.title item))
        else mret tt
    end) ;;
  (* Deduct *)
  for_each (Order.items order) (λ item,
    update_one db_inventory
      (λ d, Inventory.product_id (body d) = OrderItem.product_id item)
      (inc_quantity (- OrderItem.quantity item))) ;;
  oid ← create_document db_order order;
  mret (VDict [("ok"%string, VBool true); ("order_id"%string, VStr oid)]).

(** [GET /products/{product_id}/reviews] *)
Definition get_reviews (product_id : string) : M value :=
  reviews ← get_documents db_review
               (λ d, Review.product_id (body d) = product_id);
  mret (VList (map (λ r, VDict (with_str_id r)) reviews)).

Module NewReview.
Record t : Type := { author : string; rating : Z; content : string }.
End NewReview.

#[export] Instance NewReview_model : BaseModel NewReview.t := {
  model_validate _ := true;
  model_dump r :=
    [ ("author"%string, VStr (NewReview.author r));
      ("rating"%string, VInt (NewReview.rating r));
      ("content"%string, VStr (NewReview.content r)) ]
}.

(** [POST /products/{product_id}/reviews] *)
Definition add_review (product_id : string) (payload : NewReview.t) : M value :=
  r ← new {| Review.product_id := product_id;
             Review.author := NewReview.author payload;
             Review.rating := NewReview.rating payload;
             Review.content := NewReview.content payload |};
  rid ← create_document db_review r;
  mret (VDict [("ok"%string, VBool true); ("review_id"%string, VStr rid)]).

End Main.

(** ** Vocabulary of the statements *)

Import Database Main.

(** The inventory record [find_one({"product_id": pid})] returns: the first
    one in store order. *)
Definition first_record (inv : list (Doc Inventory.t)) (pid : string)
    : option (Doc Inventory.t) :=
  snd <$> list_find (λ d, Inventory.product_id (body d) = pid) inv.

(** The position of that record in the collection. *)
Definition first_index (inv : list (Doc Inventory.t)) (pid : string)
    : option nat :=
  fst <$> list_find (λ d, Inventory.product_id (body d) = pid) inv.

(** Stock as the handlers read it: the quantity of the first record, 0 when
    the product has none. *)
Definition stock (inv : list (Doc Inventory.t)) (pid : string) : Z :=
  quantity_or_0 (first_record inv pid).

(** The check of the first loop of [checkout] on one line item. *)
Definition in_stock (inv : list (Doc Inventory.t)) (item : OrderItem.t) : bool :=
  match first_record inv (OrderItem.product_id item) with
  | None => false
  | Some d => negb (Inventory.quantity (body d) <? OrderItem.quantity item)%Z
  end.

(** The quantity an order asks of one product, over all its line items. *)
Definition total_requested (pid : string) (items : list OrderItem.t) : Z :=
  foldr (λ item acc,
           if decide (OrderItem.product_id item = pid)
           then (OrderItem.quantity item + acc)%Z else acc) 0%Z items.

(** One [update_one ... $inc] of the second loop, on the collection. *)
Definition deduct (inv : list (Doc Inventory.t)) (item : OrderItem.t)
    : list (Doc Inventory.t) :=
  match list_find (λ d, Inventory.product_id (body d) = OrderItem.product_id item) inv with
  | Some (i, d) =>
      <[i := {| _id := _id d;
                body := inc_quantity (- OrderItem.quantity item) (body d) |}]> inv
  | None => inv
  end.

(** The same order with another subtotal. *)
Definition with_subtotal (s : float) (o : Order.t) : Order.t :=
  {| Order.items := Order.items o; Order.subtotal := s;
     Order.email := Order.email o; Order.name := Order.name o;
     Order.address := Order.address o |}.

(** Every stored [_id] came out of the generator. *)
Definition generated_below (n : N) (oid : Bson.ObjectId) : Prop :=
  ∃ k, (k < n)%N ∧ oid = Bson.generate k.

Definition ids_generated (db : Database.t) : Prop :=
  (counter db < 2 ^ 96)%N
  ∧ Forall (λ d, generated_below (counter db) (_id d)) (config db)
  ∧ Forall (λ d, generated_below (counter db) (_id d)) (collection db)
  ∧ Forall (λ d, generated_below (counter db) (_id d)) (product db)
  ∧ Forall (λ d, generated_below (counter db) (_id d)) (inventory db)
  ∧ Forall (λ d, generated_below (counter db) (_id d)) (review db)
  ∧ Forall (λ d, generated_below (counter db) (_id d)) (order db).

Definition seeded : value := VDict [("status"%string, VStr "seeded")].

(** The bodies of the two loops of [checkout]. *)
Local Abbreviation check_item := (λ item : OrderItem.t,
  inv ← find_one db_inventory
          (λ d, Inventory.product_id (body d) = OrderItem.product_id item);
  match inv with
  | None =>
      raise (HTTPException 400 ("Insufficient stock for " +:+ OrderItem.title item))
  | Some inv =>
      if (Inventory.quantity (body inv) <? OrderItem.quantity item)%Z
      then raise (HTTPException 400
                    ("Insufficient stock for " +:+ OrderItem.title item))
      else mret tt
  end).

Local Abbreviation deduct_item := (λ item : OrderItem.t,
  update_one db_inventory
    (λ d, Inventory.product_id (body d) = OrderItem.product_id item)
    (inc_quantity (- OrderItem.quantity item))).

(** A record after [$inc: {"quantity": -n}]. *)
Definition decremented (n : Z) (d : Doc Inventory.t) : Doc Inventory.t :=
  {| _id := _id d; body := inc_quantity (- n) (body d) |}.

(** What the line items that reach the record at position [i] take from it. *)
Definition share (inv : list (Doc Inventory.t)) (i : nat)
    (items : list OrderItem.t) : Z :=
  foldr (λ item acc,
           if decide (first_index inv (OrderItem.product_id item) = Some i)
           then (OrderItem.quantity item + acc)%Z else acc) 0%Z items.

(** The product ids of the inventory records, in store order. *)
Definition pids (inv : list (Doc Inventory.t)) : list string :=
  (λ d, Inventory.product_id (body d)) <$> inv.

(** A line item the first loop of [checkout] rejects: its product has no
    inventory record, or the record [find_one] returns holds less than the
    item asks. *)
Definition short (inv : list (Doc Inventory.t)) (item : OrderItem.t) : Prop :=
  first_record inv (OrderItem.product_id item) = None
  ∨ ∃ d, first_record inv (OrderItem.product_id item) = Some d
         ∧ (Inventory.quantity (body d) < OrderItem.quantity item)%Z.

(** The number a sequence of bytes stands for, big-endian. *)
Definition N_of_bytes (bs : list N) : N :=
  foldl (λ acc b, (acc * 256 + b)%N) 0%N bs.

(** *** Example data *)

(** The database after [POST /seed] on an empty store. *)
Definition seeded_db : Database.t := fst (seed Database.empty).

Definition line (pid title : string) (quantity : Z) : OrderItem.t :=
  {| OrderItem.product_id := pid; OrderItem.title := title;
     OrderItem.price := 24.0%float; OrderItem.quantity := quantity |}.

Definition order_of (items : list OrderItem.t) : Order.t :=
  {| Order.items := items; Order.subtotal := 120.0%float;
     Order.email := "buyer@example.com"; Order.name := None;
     Order.address := None |}.

(** The spec's example: after seeding, five of "The Classic Heirloom". *)
Definition heirloom_order : Order.t :=
  order_of [line "000000000000000000000003" "The Classic Heirloom" 5].

(** Two line items for the same product, three each. *)
Definition heirloom_twice : Order.t :=
  order_of [ line "000000000000000000000003" "The Classic Heirloom" 3;
             line "000000000000000000000003" "The Classic Heirloom" 3 ].

(** Two line items for "The Celestial Kit" (10 in stock), six each. *)
Definition kit_twice : Order.t :=
  order_of [ line "00000000000000000000000b" "The Celestial Kit" 6;
             line "00000000000000000000000b" "The Celestial Kit" 6 ].

(** A store with two inventory records for one product, the first empty. *)
Definition two_records_db : Database.t :=
  {| config := []; collection := []; product := [];
     inventory :=
       [ {| _id := Bson.generate 0;
            body := {| Inventory.product_id := "p"; Inventory.quantity := 0 |} |};
         {| _id := Bson.generate 1;
            body := {| Inventory.product_id := "p"; Inventory.quantity := 10 |} |} ];
     review := []; order := []; counter := 2 |}.

Definition quantities (db : Database.t) : list Z :=
  (λ d, Inventory.quantity (body d)) <$> inventory db.

(** An inventory document, by the generator's count, product id and
    quantity. *)
Definition inventory_doc (k : N) (pid : string) (q : Z) : Doc Inventory.t :=
  {| _id := Bson.generate k;
     body := {| Inventory.product_id := pid; Inventory.quantity := q |} |}.

(** A field of a returned dict. *)
Definition field (k : string) (r : result value) : option value :=
  match r with
  | Return (VDict d) => (λ found, snd (snd found)) <$> list_find (λ kv, fst kv = k) d
  | _ => None
  end.

(** The config document [toggle_config] creates when there is none. *)
Definition created_config (db : Database.t) (active : bool) : Doc Config.t :=
  {| _id := Bson.generate (counter db);
     body := {| Config.limited_edition_active := active;
                Config.limited_edition_name := "Celestial Gaze" |} |}.

(** The review document [add_review] stores. *)
Definition created_review (db : Database.t) (product_id : string)
    (payload : NewReview.t) : Doc Review.t :=
  {| _id := Bson.generate (counter db);
     body := {| Review.product_id := product_id;
                Review.author := NewReview.author payload;
                Review.rating := NewReview.rating payload;
                Review.content := NewReview.content payload |} |}.

Definition review_of (rating : Z) : NewReview.t :=
  {| NewReview.author := "Ada"; NewReview.rating := rating;
     NewReview.content := "Lovely." |}.

(** A binary id as the driver makes them: twelve bytes. *)
Definition is_oid (oid : Bson.ObjectId) : Prop :=
  length oid = 12%nat ∧ Forall (λ b, (b < 256)%N) oid.

(** "The Celestial Kit" as [seed] writes it, and a store that holds it with
    its inventory record. *)
Definition kit_product : Product.t :=
  {| Product.title := "The Celestial Kit";
     Product.subtitle := Some "Complete limited edition set"%string;
     Product.description :=
       Some "All three celestial styles in one heirloom-worthy ensemble."%string;
     Product.price := 72.0%float;
     Product.compare_at_price := Some 84.0%float;
     Product.collection_handle := "celestial-gaze";
     Product.image := None;
     Product.limited_badge := Some "Limited Edition"%string;
     Product.is_bundle := true |}.

Definition kit_doc : Doc Product.t :=
  {| _id := Bson.generate 11; body := kit_product |}.

Definition kit_db : Database.t :=
  {| config := []; collection := []; product := [kit_doc];
     inventory := [inventory_doc 12 "00000000000000000000000b" 10];
     review := []; order := []; counter := 13 |}.

(** All the stock of the inventory, and all the quantity of an order. *)
Definition total_stock (inv : list (Doc Inventory.t)) : Z :=
  foldr (λ d acc, (Inventory.quantity (body d) + acc)%Z) 0%Z inv.

Definition order_quantity (items : list OrderItem.t) : Z :=
  foldr (λ item acc, (OrderItem.quantity item + acc)%Z) 0%Z items.

(** The products [list_products] selects. *)
Definition products_of (handle : string) (db : Database.t) : list (Doc Product.t) :=
  List.filter (λ d, bool_decide (Product.collection_handle (body d) = handle))
    (product db).

(** The stored reviews of a product, as [get_reviews] returns them. *)
Definition reviews_of (product_id : string) (db : Database.t) : list value :=
  (λ r, VDict (with_str_id r))
  <$> List.filter (λ d, bool_decide (Review.product_id (body d) = product_id))
        (review db).

(** ** Properties *)

(** *** The monad and the collections *)

Lemma bind_Return {A B} (m : M A) (f : A → M B) db db' a :
  m db = (db', Return a) → (m ≫= f) db = f a db'.
Proof. intros E. unfold mbind, M_bind. by rewrite E. Qed.

Lemma bind_Raise {A B} (m : M A) (f : A → M B) db db' e :
  m db = (db', Raise e) → (m ≫= f) db = (db', Raise e).
Proof. intros E. unfold mbind, M_bind. by rewrite E. Qed.

Lemma set_inventory_same db : set db_inventory (inventory db) db = db.
Proof. by destruct db. Qed.

Lemma set_inventory_twice l l' db :
  set db_inventory l (set db_inventory l' db) = set db_inventory l db.
Proof. done. Qed.

(** *** The first matching record *)

Lemma first_record_None inv pid :
  first_record inv pid = None
  ↔ ∀ d, d ∈ inv → Inventory.product_id (body d) ≠ pid.
Proof.
  unfold first_record. rewrite fmap_None, list_find_None, Forall_forall.
  done.
Qed.

Lemma first_record_Some inv pid d :
  first_record inv pid = Some d
  ↔ ∃ i, inv !! i = Some d ∧ Inventory.product_id (body d) = pid
         ∧ ∀ j d', inv !! j = Some d' → (j < i)%nat
                   → Inventory.product_id (body d') ≠ pid.
Proof.
  unfold first_record. rewrite fmap_Some. split.
  - intros [[i d'] [H ->]]. apply list_find_Some in H. by exists i.
  - intros [i H]. exists (i, d). split; [|done]. by apply list_find_Some.
Qed.

Lemma find_one_inventory pid db :
  find_one db_inventory (λ d, Inventory.product_id (body d) = pid) db
  = (db, Return (first_record (inventory db) pid)).
Proof. done. Qed.

(** *** The two loops of [checkout] *)

Lemma check_item_in_stock item db :
  in_stock (inventory db) item = true → check_item item db = (db, Return tt).
Proof.
  unfold in_stock. intros H.
  erewrite bind_Return by apply find_one_inventory.
  destruct (first_record _ _) as [d|]; [|done].
  by destruct (_ <? _)%Z.
Qed.

Lemma check_item_short item db :
  in_stock (inventory db) item = false →
  check_item item db
  = (db, Raise (HTTPException 400
                  ("Insufficient stock for " +:+ OrderItem.title item))).
Proof.
  unfold in_stock. intros H.
  erewrite bind_Return by apply find_one_inventory.
  destruct (first_record _ _) as [d|]; [|done].
  by destruct (_ <? _)%Z.
Qed.

Lemma check_loop_in_stock items db :
  forallb (in_stock (inventory db)) items = true →
  for_each items check_item db = (db, Return tt).
Proof.
  induction items as [|item items IH]; [done|].
  cbn [forallb for_each]. intros [H1 H2]%andb_prop.
  erewrite bind_Return by by apply check_item_in_stock.
  by apply IH.
Qed.

Lemma check_loop_short l1 item l2 db :
  forallb (in_stock (inventory db)) l1 = true →
  in_stock (inventory db) item = false →
  for_each (l1 ++ item :: l2) check_item db
  = (db, Raise (HTTPException 400
                  ("Insufficient stock for " +:+ OrderItem.title item))).
Proof.
  induction l1 as [|x l1 IH]; cbn [forallb for_each app].
  - intros _ H. by erewrite bind_Raise by by apply check_item_short.
  - intros [H1 H2]%andb_prop H.
    erewrite bind_Return by by apply check_item_in_stock.
    by apply IH.
Qed.

Lemma deduct_item_spec item db :
  deduct_item item db
  = (set db_inventory (deduct (inventory db) item) db, Return tt).
Proof.
  unfold update_one, deduct. cbn [get db_inventory].
  destruct (list_find _ _) as [[i d]|]; [done|].
  by rewrite set_inventory_same.
Qed.

Lemma deduct_loop items db :
  for_each items deduct_item db
  = (set db_inventory (foldl deduct (inventory db) items) db, Return tt).
Proof.
  revert db. induction items as [|item items IH]; intros db; cbn [for_each foldl].
  - by rewrite set_inventory_same.
  - erewrite bind_Return by apply deduct_item_spec.
    by rewrite IH.
Qed.

(** The first item that fails the check splits the list. *)
Lemma first_short inv items :
  forallb (in_stock inv) items = false →
  ∃ l1 item l2, items = l1 ++ item :: l2
                ∧ forallb (in_stock inv) l1 = true
                ∧ in_stock inv item = false.
Proof.
  induction items as [|x items IH]; [done|]. cbn [forallb].
  destruct (in_stock inv x) eqn:E; cbn [andb].
  - intros (l1 & item & l2 & -> & H1 & H2)%IH.
    exists (x :: l1), item, l2. cbn [forallb]. by rewrite E, H1.
  - intros _. by exists [], x, items.
Qed.

(** [checkout] when every line item passes the first loop. *)
Lemma checkout_passed order db :
  forallb (in_stock (inventory db)) (Order.items order) = true →
  checkout order db =
  let db' := set db_inventory
               (foldl deduct (inventory db) (Order.items order)) db in
  (set db_order
     (Database.order db' ++ [{| _id := Bson.generate (counter db); body := order |}])
     (tick db'),
   Return (VDict [ ("ok"%string, VBool true);
                   ("order_id"%string,
                    VStr (Bson.str (Bson.generate (counter db)))) ])).
Proof.
  intros E. unfold checkout.
  erewrite bind_Return by by apply check_loop_in_stock.
  erewrite bind_Return by apply deduct_loop.
  done.
Qed.

(** [checkout] when some line item fails it. *)
Lemma checkout_refused order db :
  forallb (in_stock (inventory db)) (Order.items order) = false →
  ∃ l1 item l2,
    Order.items order = l1 ++ item :: l2
    ∧ forallb (in_stock (inventory db)) l1 = true
    ∧ in_stock (inventory db) item = false
    ∧ checkout order db
      = (db, Raise (HTTPException 400
                      ("Insufficient stock for " +:+ OrderItem.title item))).
Proof.
  intros E. destruct (first_short _ _ E) as (l1 & item & l2 & Hl & H1 & H2).
  exists l1, item, l2. split_and!; try done.
  unfold checkout. erewrite bind_Raise; [done|].
  rewrite Hl. by apply check_loop_short.
Qed.

(** *** What the deduction loop does to each record *)

Lemma first_index_pids inv pid :
  first_index inv pid = fst <$> list_find (λ s, s = pid) (pids inv).
Proof.
  unfold first_index, pids. rewrite list_find_fmap.
  by destruct (list_find _ inv) as [[??]|].
Qed.

Lemma first_index_Some inv pid i :
  first_index inv pid = Some i →
  ∃ d, inv !! i = Some d ∧ Inventory.product_id (body d) = pid.
Proof.
  unfold first_index. intros [[j d] [H ?]]%fmap_Some. simplify_eq/=.
  apply list_find_Some in H. exists d. tauto.
Qed.

Lemma deduct_lookup inv item i :
  deduct inv item !! i
  = (λ d, if decide (first_index inv (OrderItem.product_id item) = Some i)
          then decremented (OrderItem.quantity item) d else d) <$> inv !! i.
Proof.
  unfold deduct, first_index.
  destruct (list_find _ inv) as [[j d]|] eqn:E; cbn [fmap option_fmap option_map fst].
  - apply list_find_Some in E as (Hj & _ & _).
    destruct (decide (j = i)) as [->|Hne].
    + rewrite list_lookup_insert_eq by by eapply lookup_lt_Some.
      rewrite Hj. cbn. by rewrite decide_True.
    + rewrite list_lookup_insert_ne by done.
      destruct (inv !! i); cbn; [|done].
      rewrite decide_False; [done|congruence].
  - destruct (inv !! i); cbn; [|done]. by rewrite decide_False.
Qed.

Lemma deduct_pids inv item : pids (deduct inv item) = pids inv.
Proof.
  apply list_eq. intros i. unfold pids.
  rewrite !list_lookup_fmap, deduct_lookup.
  destruct (inv !! i); cbn; [|done]. by case_decide.
Qed.

Lemma first_index_deduct inv item pid :
  first_index (deduct inv item) pid = first_index inv pid.
Proof. by rewrite !first_index_pids, deduct_pids. Qed.

Lemma share_deduct inv item i items :
  share (deduct inv item) i items = share inv i items.
Proof.
  induction items as [|x items IH]; [done|]. cbn [share foldr].
  fold (share (deduct inv item) i items). fold (share inv i items).
  by rewrite IH, first_index_deduct.
Qed.

Lemma decremented_twice a b d :
  decremented b (decremented a d) = decremented (a + b) d.
Proof.
  unfold decremented, inc_quantity. cbn. do 2 f_equal. lia.
Qed.

Lemma decremented_0 d : decremented 0 d = d.
Proof.
  destruct d as [oid [pid q]]. unfold decremented, inc_quantity. cbn.
  do 2 f_equal. lia.
Qed.

Lemma deduct_all_lookup items inv i :
  foldl deduct inv items !! i = decremented (share inv i items) <$> inv !! i.
Proof.
  revert inv. induction items as [|item items IH]; intros inv.
  - cbn. destruct (inv !! i); cbn; [|done]. by rewrite decremented_0.
  - cbn [foldl]. rewrite IH, share_deduct, deduct_lookup.
    cbn [share foldr]. fold (share inv i items).
    destruct (inv !! i) as [d|]; cbn; [|done]. f_equal.
    case_decide; [|done]. by rewrite decremented_twice.
Qed.

(** The share of a record is the whole demand for its product when it is the
    first record of that product, and nothing otherwise. *)
Lemma share_total inv i d items :
  inv !! i = Some d →
  share inv i items
  = if decide (first_index inv (Inventory.product_id (body d)) = Some i)
    then total_requested (Inventory.product_id (body d)) items else 0%Z.
Proof.
  intros Hd. induction items as [|x items IH].
  - cbn. by case_decide.
  - cbn [share total_requested foldr].
    fold (share inv i items).
    fold (total_requested (Inventory.product_id (body d)) items).
    rewrite IH. clear IH.
    destruct (decide (first_index inv (OrderItem.product_id x) = Some i)) as [Hx|Hx].
    + destruct (first_index_Some _ _ _ Hx) as (d' & Hd' & Hp).
      assert (d' = d) as -> by congruence.
      rewrite Hp, !decide_True by done. done.
    + destruct (decide (OrderItem.product_id x = Inventory.product_id (body d)))
        as [Hp|Hp]; [|done].
      rewrite Hp in Hx. by rewrite !decide_False by done.
Qed.

Lemma total_requested_nonneg pid items :
  forallb model_validate items = true → (0 ≤ total_requested pid items)%Z.
Proof.
  induction items as [|x items IH]; [done|].
  cbn [forallb]. intros [Hx Hv]%andb_prop.
  cbn in Hx. apply Z.leb_le in Hx. specialize (IH Hv). cbn.
  fold (total_requested pid items). case_decide; lia.
Qed.

Lemma total_requested_ge item items :
  forallb model_validate items = true →
  item ∈ items →
  (OrderItem.quantity item ≤ total_requested (OrderItem.product_id item) items)%Z.
Proof.
  induction items as [|x items IH]; [by intros _ ?%elem_of_nil|].
  cbn [forallb]. intros [Hx Hv]%andb_prop Hin.
  cbn in Hx. apply Z.leb_le in Hx.
  pose proof (total_requested_nonneg (OrderItem.product_id item) items Hv).
  cbn. fold (total_requested (OrderItem.product_id item) items).
  apply elem_of_cons in Hin as [->|Hin].
  - rewrite decide_True by done. lia.
  - specialize (IH Hv Hin). case_decide; lia.
Qed.

(** *** Generated identifiers *)

Lemma N_of_to_bytes w n :
  N_of_bytes (Bson.N_to_bytes w n) = (n mod 256 ^ N.of_nat w)%N.
Proof.
  revert n. induction w as [|w IH]; intros n.
  - cbn. by rewrite N.mod_1_r.
  - cbn [Bson.N_to_bytes]. unfold N_of_bytes in *.
    rewrite foldl_app. cbn [foldl]. rewrite IH.
    rewrite Nat2N.inj_succ, N.pow_succ_r'.
    rewrite N.Div0.mod_mul_r. lia.
Qed.

Lemma generate_inj k n :
  (k < 2 ^ 96)%N → (n < 2 ^ 96)%N → Bson.generate k = Bson.generate n → k = n.
Proof.
  intros Hk Hn E. apply (f_equal N_of_bytes) in E.
  unfold Bson.generate in E. rewrite !N_of_to_bytes in E.
  change (256 ^ N.of_nat 12)%N with (2 ^ 96)%N in E.
  by rewrite !N.mod_small in E.
Qed.

Lemma generated_below_fresh n oid :
  (n < 2 ^ 96)%N → generated_below n oid → oid ≠ Bson.generate n.
Proof.
  intros Hn (k & Hk & ->) E. apply generate_inj in E; lia.
Qed.

(** *** Checkout *)

Lemma short_in_stock inv item : short inv item ↔ in_stock inv item = false.
Proof.
  unfold short, in_stock.
  destruct (first_record _ _) as [d|].
  - rewrite negb_false_iff, Z.ltb_lt. split.
    + by intros [?|(d' & [= <-] & ?)].
    + intros H. right. by exists d.
  - split; [done|]. by left.
Qed.

Lemma total_requested_single item items :
  NoDup (OrderItem.product_id <$> items) →
  item ∈ items →
  total_requested (OrderItem.product_id item) items = OrderItem.quantity item.
Proof.
  induction items as [|x items IH]; [by intros _ ?%elem_of_nil|].
  cbn [fmap list_fmap]. intros [Hx Hnd]%NoDup_cons Hin.
  cbn. fold (total_requested (OrderItem.product_id item) items).
  assert (∀ pid, pid ∉ OrderItem.product_id <$> items →
                 total_requested pid items = 0%Z) as H0.
  { clear. intros pid. induction items as [|y items IH]; [done|].
    cbn [fmap list_fmap]. intros [Hy Hnin]%not_elem_of_cons. cbn.
    rewrite decide_False by done. by apply IH. }
  apply elem_of_cons in Hin as [->|Hin].
  - rewrite decide_True by done. rewrite H0 by done. lia.
  - rewrite decide_False; [by apply IH|].
    intros E. apply Hx. rewrite E. by apply list_elem_of_fmap_2.
Qed.

(** C1 (as amended): when, for every line item of a valid order, the
    inventory record that [find_one] returns for the item's product_id (the
    first one in store order) holds at least the total quantity the order
    asks of that product, [checkout] returns [{ok: true, order_id}] with the
    id generated for the new order document, which no stored document has;
    the order document, with the full item list, is appended to the order
    collection; and the first record of every product is decremented by the
    total the order asks of it, which is the item's own quantity when no two
    line items name the same product.  Nothing else changes. *)
Theorem checkout_in_stock_succeeds (order : Order.t) (db : Database.t) :
  model_validate order = true →
  (∀ item, item ∈ Order.items order →
     ∃ d, first_record (inventory db) (OrderItem.product_id item) = Some d
          ∧ (total_requested (OrderItem.product_id item) (Order.items order)
             ≤ Inventory.quantity (body d))%Z) →
  ∃ db',
    checkout order db
    = (db', Return (VDict [ ("ok"%string, VBool true);
                            ("order_id"%string,
                             VStr (Bson.str (Bson.generate (counter db)))) ]))
    ∧ Database.order db'
      = Database.order db ++ [{| _id := Bson.generate (counter db); body := order |}]
    ∧ (ids_generated db →
       ∀ d, d ∈ Database.order db → _id d ≠ Bson.generate (counter db))
    ∧ (∀ i, inventory db' !! i
            = (λ d, decremented
                      (if decide (first_index (inventory db)
                                    (Inventory.product_id (body d)) = Some i)
                       then total_requested (Inventory.product_id (body d))
                              (Order.items order)
                       else 0) d) <$> inventory db !! i)
    ∧ (NoDup (OrderItem.product_id <$> Order.items order) →
       ∀ item, item ∈ Order.items order →
         total_requested (OrderItem.product_id item) (Order.items order)
         = OrderItem.quantity item)
    ∧ config db' = config db ∧ collection db' = collection db
    ∧ product db' = product db ∧ review db' = review db.
Proof.
  intros Hv Hstock. eexists. rewrite checkout_passed.
  2:{ apply forallb_forall. intros item Hin%list_elem_of_In.
      destruct (Hstock item Hin) as (d & Hd & Hq).
      pose proof (total_requested_ge item _ Hv Hin).
      unfold in_stock. rewrite Hd. apply negb_true_iff, Z.ltb_ge. lia. }
  split; [reflexivity|]. cbn [Database.order set db_order db_inventory tick
    inventory config collection product review].
  split_and!; try done.
  - intros (Hc & _ & _ & _ & _ & _ & Ho) d Hd.
    rewrite Forall_forall in Ho. by apply generated_below_fresh, Ho.
  - intros i. rewrite deduct_all_lookup.
    destruct (inventory db !! i) as [d|] eqn:Hd; cbn; [|done].
    by rewrite (share_total _ _ d).
  - intros Hnd item Hin. by apply total_requested_single.
Qed.

Lemma checkout_in_stock_succeeds_witness :
  model_validate heirloom_order = true
  ∧ ∃ db',
      checkout heirloom_order seeded_db
      = (db', Return (VDict [ ("ok"%string, VBool true);
                              ("order_id"%string,
                               VStr (Bson.str (Bson.generate (counter seeded_db)))) ])).
Proof.
  split; [reflexivity|].
  destruct (checkout_in_stock_succeeds heirloom_order seeded_db)
    as (db' & H & _).
  - reflexivity.
  - intros item Hin. apply list_elem_of_singleton in Hin. subst item.
    eexists. split; [vm_compute; reflexivity|]. vm_compute. discriminate.
  - by exists db'.
Defined.

(** The spec's example in numbers: stock 50 becomes 45, and the order id is
    returned. *)
Example checkout_heirloom_45 :
  quantities seeded_db = [50; 20; 20; 20; 10]%Z
  ∧ snd (checkout heirloom_order seeded_db)
    = Return (VDict [ ("ok"%string, VBool true);
                      ("order_id"%string, VStr "00000000000000000000000d") ])
  ∧ quantities (fst (checkout heirloom_order seeded_db)) = [45; 20; 20; 20; 10]%Z.
Proof. vm_compute. done. Qed.

(** The inventory that seeding an empty store leaves. *)
Lemma seeded_inventory :
  inventory seeded_db
  = [ inventory_doc 4 "000000000000000000000003" 50;
      inventory_doc 6 "000000000000000000000005" 20;
      inventory_doc 8 "000000000000000000000007" 20;
      inventory_doc 10 "000000000000000000000009" 20;
      inventory_doc 12 "00000000000000000000000b" 10 ].
Proof. vm_compute. reflexivity. Qed.

(** C1 (as stated) fails.  First, on the seeded store and an order with two
    line items of three for the same product: every item finds a record with
    enough stock and checkout succeeds, but the record loses six, not the
    three the item asks.  Second, on a store with two inventory records for
    one product: a record with enough stock exists, but [find_one] returns
    the first one and checkout answers 400. *)
Lemma checkout_in_stock_counterexample :
  ((∀ item, item ∈ Order.items heirloom_twice →
      ∃ d, d ∈ inventory seeded_db
           ∧ Inventory.product_id (body d) = OrderItem.product_id item
           ∧ (OrderItem.quantity item ≤ Inventory.quantity (body d))%Z)
   ∧ status_code (snd (checkout heirloom_twice seeded_db)) = 200%Z
   ∧ inventory seeded_db !! 0%nat
     = Some (inventory_doc 4 "000000000000000000000003" 50)
   ∧ inventory (fst (checkout heirloom_twice seeded_db)) !! 0%nat
     = Some (inventory_doc 4 "000000000000000000000003" 44)
   ∧ (44 ≠ 50 - 3)%Z)
  ∧ ((∀ item, item ∈ Order.items (order_of [line "p" "The Classic Heirloom" 5]) →
        ∃ d, d ∈ inventory two_records_db
             ∧ Inventory.product_id (body d) = OrderItem.product_id item
             ∧ (OrderItem.quantity item ≤ Inventory.quantity (body d))%Z)
     ∧ checkout (order_of [line "p" "The Classic Heirloom" 5]) two_records_db
       = (two_records_db,
          Raise (HTTPException 400 "Insufficient stock for The Classic Heirloom"))).
Proof.
  split; split_and!.
  - rewrite seeded_inventory. intros item Hin.
    exists (inventory_doc 4 "000000000000000000000003" 50).
    split; [by left|].
    assert (item = line "000000000000000000000003" "The Classic Heirloom" 3)
      as ->.
    { unfold heirloom_twice, order_of, Order.items in Hin.
      by repeat (apply elem_of_cons in Hin as [->|Hin]; [done|]);
         apply elem_of_nil in Hin. }
    split; [reflexivity|]. cbn. lia.
  - vm_compute. reflexivity.
  - vm_compute. reflexivity.
  - vm_compute. reflexivity.
  - lia.
  - intros item Hin.
    exists (inventory_doc 1 "p" 10).
    split; [by right; left|].
    assert (item = line "p" "The Classic Heirloom" 5) as ->.
    { unfold order_of, Order.items in Hin.
      by apply list_elem_of_singleton in Hin. }
    split; [reflexivity|]. cbn. lia.
  - vm_compute. reflexivity.
Qed.

(** C2: when some line item has no inventory record for its product_id, or
    the record [find_one] returns for it holds strictly less than the item
    asks, [checkout] raises [HTTPException(400, "Insufficient stock for
    {title}")] with the title of such an item (the first one in the order),
    and the database it leaves is the database it found: no inventory record
    is modified, and no order is stored. *)
Theorem checkout_insufficient_stock (order : Order.t) (db : Database.t) :
  (∃ item, item ∈ Order.items order ∧ short (inventory db) item) →
  ∃ l1 item l2,
    Order.items order = l1 ++ item :: l2
    ∧ Forall (λ x, ¬ short (inventory db) x) l1
    ∧ short (inventory db) item
    ∧ checkout order db
      = (db, Raise (HTTPException 400
                      ("Insufficient stock for " +:+ OrderItem.title item)))
    ∧ status_code (snd (checkout order db)) = 400%Z
    ∧ inventory (fst (checkout order db)) = inventory db.
Proof.
  intros (bad & Hin & Hbad).
  assert (forallb (in_stock (inventory db)) (Order.items order) = false) as E.
  { apply not_true_is_false. intros H. rewrite forallb_forall in H.
    apply short_in_stock in Hbad.
    apply list_elem_of_In, H in Hin. congruence. }
  destruct (checkout_refused _ _ E) as (l1 & item & l2 & Hl & H1 & H2 & Hc).
  exists l1, item, l2.
  split_and!; [done| |by apply short_in_stock|done|by rewrite Hc|by rewrite Hc].
  apply Forall_forall. intros x Hx Hs%short_in_stock.
  rewrite forallb_forall in H1.
  apply list_elem_of_In, H1 in Hx. congruence.
Qed.

(** The spec's example: a thousand of "The Classic Heirloom" against the 45
    left after the first order. *)
Lemma checkout_insufficient_stock_witness :
  let db := fst (checkout heirloom_order seeded_db) in
  let order :=
    order_of [line "000000000000000000000003" "The Classic Heirloom" 1000] in
  ∃ l1 item l2,
    Order.items order = l1 ++ item :: l2
    ∧ Forall (λ x, ¬ short (inventory db) x) l1
    ∧ short (inventory db) item
    ∧ checkout order db
      = (db, Raise (HTTPException 400
                      ("Insufficient stock for " +:+ OrderItem.title item)))
    ∧ status_code (snd (checkout order db)) = 400%Z
    ∧ inventory (fst (checkout order db)) = inventory db.
Proof.
  intros db order.
  apply (checkout_insufficient_stock order db).
  exists (line "000000000000000000000003" "The Classic Heirloom" 1000).
  split; [by left|].
  right. exists (inventory_doc 4 "000000000000000000000003" 45).
  split; [vm_compute; reflexivity|]. cbn. lia.
Defined.

Example checkout_thousand_refused :
  let db := fst (checkout heirloom_order seeded_db) in
  checkout
    (order_of [line "000000000000000000000003" "The Classic Heirloom" 1000]) db
  = (db, Raise (HTTPException 400 "Insufficient stock for The Classic Heirloom"))
  ∧ quantities db = [45; 20; 20; 20; 10]%Z.
Proof. vm_compute. done. Qed.

(** C3 fails on the code: the first loop compares every line item with the
    stock on its own, so two line items of six for a product with ten in
    stock both pass, and the second loop takes twelve.  From the seeded
    store, where every quantity is non-negative, the valid order [kit_twice]
    succeeds and leaves the record of "The Celestial Kit" at -2. *)
Theorem checkout_same_product_twice_negative :
  Forall (λ q, 0 ≤ q)%Z (quantities seeded_db)
  ∧ model_validate kit_twice = true
  ∧ snd (route checkout kit_twice seeded_db)
    = Return (VDict [ ("ok"%string, VBool true);
                      ("order_id"%string, VStr "00000000000000000000000d") ])
  ∧ quantities (fst (route checkout kit_twice seeded_db))
    = [50; 20; 20; 20; -2]%Z.
Proof.
  split_and!.
  - assert (quantities seeded_db = [50; 20; 20; 20; 10]%Z) as ->
      by (vm_compute; reflexivity).
    repeat constructor; lia.
  - reflexivity.
  - vm_compute. reflexivity.
  - vm_compute. reflexivity.
Qed.

(** Orders that name no product twice, or more generally ask no more of a
    product in total than its first record holds, keep the stock
    non-negative. *)
Lemma checkout_nonneg (order : Order.t) (db : Database.t) :
  model_validate order = true →
  (∀ item, item ∈ Order.items order →
     ∃ d, first_record (inventory db) (OrderItem.product_id item) = Some d
          ∧ (total_requested (OrderItem.product_id item) (Order.items order)
             ≤ Inventory.quantity (body d))%Z) →
  Forall (λ q, 0 ≤ q)%Z (quantities db) →
  Forall (λ q, 0 ≤ q)%Z (quantities (fst (checkout order db))).
Proof.
  intros Hv Hstock Hnn.
  destruct (forallb (in_stock (inventory db)) (Order.items order)) eqn:E.
  2:{ by destruct (checkout_refused _ _ E) as (? & ? & ? & _ & _ & _ & ->). }
  rewrite checkout_passed by done.
  cbn [fst]. unfold quantities in *.
  cbn [inventory set db_order db_inventory tick].
  rewrite Forall_lookup in Hnn. apply Forall_lookup. intros i q.
  rewrite list_lookup_fmap, deduct_all_lookup.
  specialize (Hnn i). rewrite list_lookup_fmap in Hnn.
  destruct (inventory db !! i) as [d|] eqn:Hd; cbn in *; [|done].
  intros [= <-]. specialize (Hnn _ eq_refl).
  rewrite (share_total _ _ d _ Hd). case_decide as Hi; [|lia].
  pose proof Hi as (d' & Hd' & Hp)%first_index_Some.
  assert (d' = d) as -> by congruence.
  assert (first_record (inventory db) (Inventory.product_id (body d)) = Some d)
    as Hf.
  { unfold first_record. unfold first_index in Hi.
    destruct (list_find _ _) as [[j x]|] eqn:Ef; [|done]. cbn in *.
    simplify_eq. apply list_find_Some in Ef as (? & _). congruence. }
  destruct (decide (total_requested (Inventory.product_id (body d))
                      (Order.items order) = 0)%Z) as [->|Hne]; [lia|].
  assert (∃ item, item ∈ Order.items order
                  ∧ OrderItem.product_id item = Inventory.product_id (body d))
    as (item & Hin & Hpid).
  { clear -Hne. induction (Order.items order) as [|x l IH]; [done|].
    cbn in Hne. fold (total_requested (Inventory.product_id (body d)) l) in Hne.
    case_decide.
    - exists x. split; [by left|done].
    - destruct (IH Hne) as (item & ? & ?). exists item. split; [by right|done]. }
  destruct (Hstock item Hin) as (d2 & Hd2 & Hq). rewrite Hpid in Hd2, Hq.
  assert (d2 = d) as -> by congruence. lia.
Qed.

(** C9: two checkout requests that differ only in their subtotal, run on the
    same database, get the same answer (the same order id, or the same 400
    or 422) and leave the same inventory, and the same of every collection
    but the orders; the subtotal is only stored, in the order document. *)
Theorem checkout_subtotal_independent
    (order : Order.t) (s1 s2 : float) (db : Database.t) :
  let r1 := route checkout (with_subtotal s1 order) db in
  let r2 := route checkout (with_subtotal s2 order) db in
  snd r1 = snd r2
  ∧ inventory (fst r1) = inventory (fst r2)
  ∧ config (fst r1) = config (fst r2)
  ∧ collection (fst r1) = collection (fst r2)
  ∧ product (fst r1) = product (fst r2)
  ∧ review (fst r1) = review (fst r2)
  ∧ counter (fst r1) = counter (fst r2)
  ∧ (_id <$> Database.order (fst r1)) = (_id <$> Database.order (fst r2))
  ∧ (status_code (snd r1) = 200%Z →
     Database.order (fst r1)
     = Database.order db
       ++ [{| _id := Bson.generate (counter db);
              body := with_subtotal s1 order |}]).
Proof.
  unfold route. cbn [model_validate Order_model with_subtotal Order.items].
  destruct (forallb _ _); [|done].
  destruct (forallb (in_stock (inventory db)) (Order.items order)) eqn:E.
  - rewrite !checkout_passed by done.
    cbn [fst snd inventory config collection product review counter
         Database.order set db_order db_inventory tick].
    rewrite !fmap_app. done.
  - destruct (checkout_refused (with_subtotal s1 order) _ E)
      as (l1 & x1 & l1' & Hl1 & Hp1 & Hx1 & ->).
    destruct (checkout_refused (with_subtotal s2 order) _ E)
      as (l2 & x2 & l2' & Hl2 & Hp2 & Hx2 & ->).
    cbn [with_subtotal Order.items] in Hl1, Hl2.
    assert (x1 = x2) as ->.
    { clear -Hl1 Hl2 Hp1 Hp2 Hx1 Hx2. rewrite Hl1 in Hl2. clear Hl1.
      revert l2 Hl2 Hp2.
      induction l1 as [|a l1 IH]; intros [|b l2] Hl2 Hp2; simplify_eq/=.
      - done.
      - apply andb_prop in Hp2 as [??]. congruence.
      - apply andb_prop in Hp1 as [??]. congruence.
      - apply andb_prop in Hp1 as [??]. apply andb_prop in Hp2 as [??].
        by eapply IH. }
    cbn. split_and!; done.
Qed.

(** *** Config *)

(** C4: with no config document [get_config] returns exactly
    [{limited_edition_active: false, limited_edition_name: "Celestial Gaze"}];
    with one it returns that document (the first, should there be several),
    its [_id] as a string.  The database is left as it was. *)
Theorem get_config_default_or_document (db : Database.t) :
  get_config db
  = (db, Return (VDict
       match config db with
       | [] => [ ("limited_edition_active"%string, VBool false);
                 ("limited_edition_name"%string, VStr "Celestial Gaze") ]
       | doc :: _ =>
           [ ("_id"%string, VStr (Bson.str (_id doc)));
             ("limited_edition_active"%string,
              VBool (Config.limited_edition_active (body doc)));
             ("limited_edition_name"%string,
              VStr (Config.limited_edition_name (body doc))) ]
       end)).
Proof.
  unfold get_config, find_one, mbind, M_bind. cbn [get db_config].
  by destruct (config db) as [|doc rest].
Qed.

Lemma toggle_config_eq (payload : ConfigToggle.t) (db : Database.t) :
  toggle_config payload db
  = (match config db with
     | [] =>
         set db_config
           [created_config db (ConfigToggle.limited_edition_active payload)]
           (tick db)
     | doc :: rest =>
         set db_config
           ({| _id := _id doc;
               body := set_limited_edition_active
                         (ConfigToggle.limited_edition_active payload) (body doc) |}
              :: rest) db
     end,
     Return (VDict [ ("ok"%string, VBool true);
                     ("limited_edition_active"%string,
                      VBool (ConfigToggle.limited_edition_active payload)) ])).
Proof.
  destruct db as [cfg ? ? ? ? ? n]. cbn [config].
  unfold toggle_config, find_one, update_one, create_document, new, mbind, M_bind.
  destruct cfg as [|doc rest]; cbn -[Bson.generate]; [done|].
  rewrite decide_True by done. cbn -[Bson.generate].
  by rewrite decide_True.
Qed.

(** C5: [toggle_config] keeps the config collection at no more than one
    document.  An existing document is updated in place, only its
    [limited_edition_active] set to the request's value; a document is
    created only when there is none; the answer is
    [{ok: true, limited_edition_active: <request value>}] either way, and no
    other collection changes. *)
Theorem toggle_config_singleton (payload : ConfigToggle.t) (db : Database.t) :
  (length (config db) ≤ 1)%nat →
  ∃ db',
    toggle_config payload db
    = (db', Return (VDict [ ("ok"%string, VBool true);
                            ("limited_edition_active"%string,
                             VBool (ConfigToggle.limited_edition_active payload)) ]))
    ∧ (length (config db') ≤ 1)%nat
    ∧ config db'
      = match config db with
        | [] => [created_config db (ConfigToggle.limited_edition_active payload)]
        | doc :: rest =>
            {| _id := _id doc;
               body := {| Config.limited_edition_active :=
                            ConfigToggle.limited_edition_active payload;
                          Config.limited_edition_name :=
                            Config.limited_edition_name (body doc) |} |} :: rest
        end
    ∧ collection db' = collection db ∧ product db' = product db
    ∧ inventory db' = inventory db ∧ review db' = review db
    ∧ Database.order db' = Database.order db.
Proof.
  intros Hlen. eexists. rewrite toggle_config_eq. split; [reflexivity|].
  destruct (config db) as [|doc rest]; cbn in *; split_and!; done.
Qed.

Lemma toggle_config_singleton_witness :
  ∃ db',
    toggle_config {| ConfigToggle.limited_edition_active := true |} seeded_db
    = (db', Return (VDict [ ("ok"%string, VBool true);
                            ("limited_edition_active"%string, VBool true) ]))
    ∧ (length (config db') ≤ 1)%nat.
Proof.
  destruct (toggle_config_singleton
              {| ConfigToggle.limited_edition_active := true |} seeded_db)
    as (db' & H & Hlen & _).
  - vm_compute. lia.
  - exists db'. split; [exact H | exact Hlen].
Defined.

(** *** Reviews *)

Lemma add_review_in_range (product_id : string) (payload : NewReview.t)
    (db : Database.t) :
  (1 ≤ NewReview.rating payload ≤ 5)%Z →
  add_review product_id payload db
  = (set db_review (review db ++ [created_review db product_id payload]) (tick db),
     Return (VDict [ ("ok"%string, VBool true);
                     ("review_id"%string,
                      VStr (Bson.str (Bson.generate (counter db)))) ])).
Proof.
  intros [H1 H2]. unfold add_review, new, mbind, M_bind.
  cbn [model_validate Review_model Review.rating].
  apply Z.leb_le in H1, H2. by rewrite H1, H2.
Qed.

Lemma add_review_out_of_range (product_id : string) (payload : NewReview.t)
    (db : Database.t) :
  ¬ (1 ≤ NewReview.rating payload ≤ 5)%Z →
  add_review product_id payload db = (db, Raise ValidationError).
Proof.
  intros H. unfold add_review, new, mbind, M_bind.
  cbn [model_validate Review_model Review.rating].
  destruct (_ && _)%bool eqn:E; [|done].
  apply andb_prop in E as [?%Z.leb_le ?%Z.leb_le]. lia.
Qed.

(** C10: [add_review] looks no product up.  Whatever the product_id string,
    an id of a stored product or not, well-formed or not, a review with a
    rating from 1 to 5 is appended to the review collection under that
    product_id and [{ok: true, review_id}] is returned with the id of the
    new document; the product collection plays no part. *)
Theorem add_review_any_product_id (product_id : string) (payload : NewReview.t)
    (db : Database.t) :
  (1 ≤ NewReview.rating payload ≤ 5)%Z →
  ∃ db',
    route (add_review product_id) payload db
    = (db', Return (VDict [ ("ok"%string, VBool true);
                            ("review_id"%string,
                             VStr (Bson.str (Bson.generate (counter db)))) ]))
    ∧ review db' = review db ++ [created_review db product_id payload]
    ∧ Review.product_id (body (created_review db product_id payload)) = product_id
    ∧ product db' = product db.
Proof.
  intros H. eexists. unfold route. cbn [model_validate NewReview_model].
  rewrite add_review_in_range by done. done.
Qed.

Lemma add_review_any_product_id_witness :
  ∃ db',
    route (add_review "not an id") (review_of 5) Database.empty
    = (db', Return (VDict [ ("ok"%string, VBool true);
                            ("review_id"%string,
                             VStr (Bson.str (Bson.generate 0))) ]))
    ∧ review db' = [created_review Database.empty "not an id" (review_of 5)].
Proof.
  destruct (add_review_any_product_id "not an id" (review_of 5) Database.empty)
    as (db' & H & Hr & _).
  - cbn. lia.
  - exists db'. split; [exact H | exact Hr].
Defined.

(** C6 fails on the code.  The body model [NewReview] puts no bound on
    [rating], so a rating of 6 or 0 passes request validation; the bound is
    that of [Review], built inside the handler, where pydantic's
    [ValidationError] is an exception no handler is registered for: the
    answer is a 500, not a 422.  Nothing is written. *)
Theorem add_review_rating_6_is_500 (product_id : string) (db : Database.t) :
  route (add_review product_id) (review_of 6) db = (db, Raise ValidationError)
  ∧ status_code (snd (route (add_review product_id) (review_of 6) db)) = 500%Z
  ∧ route (add_review product_id) (review_of 0) db = (db, Raise ValidationError)
  ∧ status_code (snd (route (add_review product_id) (review_of 0) db)) = 500%Z.
Proof. done. Qed.

(** *** Seeding *)

(** Run [seed] on a database given by its collections, leaving the
    generated ids as they are. *)
Local Ltac seed_compute := cbv -[Bson.generate Bson.str N.succ].

(** With a config, a collection and a product already stored, every guard
    of [seed] is false and nothing is written. *)
Lemma seed_nothing_to_do (db : Database.t) :
  config db ≠ [] → collection db ≠ [] → product db ≠ [] →
  seed db = (db, Return seeded).
Proof.
  destruct db as [[|c cs] [|l ls] [|p ps] inv rev ord n];
    cbn [config collection product]; intros Hc Hl Hp; try congruence.
  seed_compute. reflexivity.
Qed.

(** After [seed], the three guarded collections are not empty. *)
Lemma seed_fills (db : Database.t) :
  snd (seed db) = Return seeded
  ∧ config (fst (seed db)) ≠ []
  ∧ collection (fst (seed db)) ≠ []
  ∧ product (fst (seed db)) ≠ [].
Proof.
  destruct db as [[|c cs] [|l ls] [|p ps] inv rev ord n];
    (split_and!; [seed_compute; reflexivity | seed_compute; discriminate ..]).
Qed.

(** C7: [seed] is idempotent.  A second run right after a first finds the
    config, collection and product collections non-empty, so each of its
    three guarded sections writes nothing: no config, collection, product or
    inventory document is added, and the database after two runs is the
    database after one.  Both runs answer [{status: "seeded"}]. *)
Theorem seed_idempotent (db : Database.t) :
  snd (seed db) = Return seeded
  ∧ seed (fst (seed db)) = (fst (seed db), Return seeded).
Proof.
  destruct (seed_fills db) as (Hr & Hc & Hl & Hp).
  split; [done|]. by apply seed_nothing_to_do.
Qed.

(** What the first run of [seed] writes depends on each guard alone: a
    section whose collection holds a document is skipped. *)
Lemma seed_guards (db : Database.t) :
  (config db ≠ [] → config (fst (seed db)) = config db)
  ∧ (collection db ≠ [] → collection (fst (seed db)) = collection db)
  ∧ (product db ≠ [] →
     product (fst (seed db)) = product db
     ∧ inventory (fst (seed db)) = inventory db).
Proof.
  destruct db as [[|c cs] [|l ls] [|p ps] inv rev ord n];
    cbn [config collection product inventory];
    (split_and!; intros H; try congruence; try split; seed_compute; reflexivity).
Qed.

Example seed_empty_counts :
  length (config seeded_db) = 1%nat
  ∧ length (collection seeded_db) = 2%nat
  ∧ length (product seeded_db) = 5%nat
  ∧ length (inventory seeded_db) = 5%nat
  ∧ seed seeded_db = (seeded_db, Return seeded).
Proof.
  split_and!; [vm_compute; reflexivity ..|].
  destruct (seed_fills Database.empty) as (_ & ? & ? & ?).
  by apply seed_nothing_to_do.
Qed.

(** *** Products with their inventory *)

Lemma for_map_reads {A B} (body : A → M B) (g : A → B) (l : list A) db :
  (∀ x, body x db = (db, Return (g x))) →
  for_map l body db = (db, Return (g <$> l)).
Proof.
  intros H. induction l as [|x l IH]; [done|]. cbn [for_map].
  erewrite bind_Return by apply H.
  erewrite bind_Return by apply IH. done.
Qed.

(** [list_products]: every product of the collection comes with the stock
    of its own id, 0 when it has no inventory record; the call cannot
    fail. *)
Lemma list_products_inventory (handle : string) (db : Database.t) :
  list_products handle db
  = (db, Return (VList (
       (λ p, VDict (with_str_id p
                      ++ [("inventory"%string,
                           VInt (stock (inventory db) (Bson.str (_id p))))]))
       <$> List.filter
             (λ d, bool_decide (Product.collection_handle (body d) = handle))
             (product db)))).
Proof.
  unfold list_products, get_documents.
  erewrite bind_Return by reflexivity.
  erewrite bind_Return; [reflexivity|].
  apply for_map_reads. intros p.
  by erewrite bind_Return by apply find_one_inventory.
Qed.

(** [get_product]: the product is found by the parsed id, its stock is read
    by the string of the request. *)
Lemma get_product_inventory (product_id : string) (db : Database.t) :
  get_product product_id db
  = (db,
     match Bson.of_str product_id with
     | None => Raise (HTTPException 400 "Invalid ID")
     | Some oid =>
         match snd <$> list_find (λ d, _id d = oid) (product db) with
         | None => Raise (HTTPException 404 "Product not found")
         | Some prod =>
             Return (VDict (with_str_id prod
                              ++ [("inventory"%string,
                                   VInt (stock (inventory db) product_id))]))
         end
     end).
Proof.
  unfold get_product, to_oid.
  destruct (Bson.of_str product_id) as [oid|]; [|done].
  erewrite bind_Return by reflexivity.
  erewrite bind_Return by reflexivity. cbn [get db_product].
  destruct (snd <$> list_find _ (product db)) as [prod|]; [|done].
  by erewrite bind_Return by apply find_one_inventory.
Qed.

(** So [get_product] reports the stock of the product it returns whenever
    the request spells the id as [str] prints it. *)
Lemma get_product_inventory_canonical (product_id : string) (db : Database.t)
    oid prod :
  Bson.of_str product_id = Some oid →
  snd <$> list_find (λ d, _id d = oid) (product db) = Some prod →
  Bson.str (_id prod) = product_id →
  get_product product_id db
  = (db, Return (VDict (with_str_id prod
                          ++ [("inventory"%string,
                               VInt (stock (inventory db)
                                       (Bson.str (_id prod))))]))).
Proof.
  intros Ho Hp Hs. rewrite get_product_inventory, Ho, Hp. by rewrite Hs.
Qed.

(** C8 fails on the code for [get_product].  [ObjectId] reads hexadecimal
    digits in either case and prints them in lower case, and [get_product]
    looks the inventory up by the string of the request, where
    [list_products] uses the string of the product's own id.  On the seeded
    store, the id of "The Celestial Kit" written with a capital B finds the
    product and reports inventory 0, while the inventory record of that
    product holds 10, as the lower-case request and [list_products] both
    report. *)
Theorem get_product_upper_case_id_inventory_0 :
  let upper := get_product "00000000000000000000000B" seeded_db in
  let lower := get_product "00000000000000000000000b" seeded_db in
  field "_id" (snd upper) = Some (VStr "00000000000000000000000b")
  ∧ field "title" (snd upper) = Some (VStr "The Celestial Kit")
  ∧ field "inventory" (snd upper) = Some (VInt 0)
  ∧ first_record (inventory seeded_db) "00000000000000000000000b"
    = Some (inventory_doc 12 "00000000000000000000000b" 10)
  ∧ field "inventory" (snd lower) = Some (VInt 10)
  ∧ (∃ kits, snd (list_products "celestial-gaze" seeded_db) = Return (VList kits)
             ∧ field "_id" (Return (default VNone (last kits)))
               = Some (VStr "00000000000000000000000b")
             ∧ field "inventory" (Return (default VNone (last kits)))
               = Some (VInt 10)).
Proof.
  cbv zeta. split_and!; try (vm_compute; reflexivity).
  eexists. split; [vm_compute; reflexivity|].
  split; vm_compute; reflexivity.
Qed.

(** *** The identifiers stay generated ones *)

Lemma ids_generated_empty : ids_generated Database.empty.
Proof. unfold ids_generated. cbn. split_and!; by try constructor. Qed.

Lemma generated_below_succ n oid :
  generated_below n oid → generated_below (N.succ n) oid.
Proof. intros (k & Hk & ->). exists k. split; [lia|done]. Qed.

Lemma deduct_all_ids items inv :
  (_id <$> foldl deduct inv items) = (_id <$> inv).
Proof.
  apply list_eq. intros i. rewrite !list_lookup_fmap, deduct_all_lookup.
  by destruct (inv !! i).
Qed.

(** [checkout] keeps the invariant under which its order id is fresh, as
    long as the generator has ids left. *)
Lemma checkout_ids_generated (order : Order.t) (db : Database.t) :
  ids_generated db → (N.succ (counter db) < 2 ^ 96)%N →
  ids_generated (fst (checkout order db)).
Proof.
  intros Hg Hn.
  destruct (forallb (in_stock (inventory db)) (Order.items order)) eqn:E.
  2:{ by destruct (checkout_refused _ _ E) as (? & ? & ? & _ & _ & _ & ->). }
  rewrite checkout_passed by done.
  destruct Hg as (Hc & H1 & H2 & H3 & H4 & H5 & H6).
  unfold ids_generated.
  cbn [fst counter config collection product inventory review Database.order
       set db_order db_inventory tick].
  assert (∀ A (l : list (Doc A)),
            Forall (λ d, generated_below (counter db) (_id d)) l →
            Forall (λ d, generated_below (N.succ (counter db)) (_id d)) l) as Hs.
  { intros A l Hl. eapply Forall_impl; [exact Hl|].
    intros d. apply generated_below_succ. }
  split_and!; try by apply Hs.
  - done.
  - apply Forall_fmap with (f := _id)
                           (P := generated_below (N.succ (counter db))).
    rewrite deduct_all_ids. apply Forall_fmap. by apply Hs.
  - apply Forall_app. split; [by apply Hs|].
    constructor; [|done]. exists (counter db). split; [lia|done].
Qed.

(** ** Further properties of the handlers *)

(** *** Identifiers in requests *)

Lemma nibble_digit n :
  (n < 16)%N →
  Bson.is_space (nth (N.to_nat n) Bson.hexdigits "0"%char) = false
  ∧ Bson.digit_value (nth (N.to_nat n) Bson.hexdigits "0"%char) = Some n.
Proof.
  intros H. rewrite <- (N2Nat.id n) at 3.
  assert (N.to_nat n < 16)%nat as Hm by lia.
  generalize dependent (N.to_nat n). clear. intros m Hm.
  do 16 (destruct m as [|m]; [by vm_compute|]). lia.
Qed.

Lemma fromhex_hexlify bs :
  Forall (λ b, (b < 256)%N) bs →
  Bson.fromhex (flat_map Bson.hex_of_byte bs) = Some bs.
Proof.
  induction 1 as [|b bs Hb _ IH]; [done|].
  cbn [flat_map Bson.hex_of_byte app Bson.fromhex].
  assert (b / 16 < 16)%N as Hhi by (apply N.Div0.div_lt_upper_bound; lia).
  assert (b mod 16 < 16)%N as Hlo by (apply N.mod_lt; lia).
  destruct (nibble_digit _ Hhi) as [-> ->].
  destruct (nibble_digit _ Hlo) as [_ ->].
  rewrite IH. cbn. do 2 f_equal.
  rewrite (N.div_mod b 16) at 3 by lia. lia.
Qed.

Lemma length_str oid : String.length (Bson.str oid) = (2 * length oid)%nat.
Proof.
  unfold Bson.str.
  assert (∀ l, String.length (string_of_list_ascii l) = length l) as ->.
  { induction l as [|c l IH]; cbn; [done|]. by rewrite IH. }
  induction oid as [|b oid IH]; [done|]. cbn [flat_map]. 
  rewrite length_app, IH. cbn. lia.
Qed.

Lemma of_str_str oid : is_oid oid → Bson.of_str (Bson.str oid) = Some oid.
Proof.
  intros [Hlen Hb]. unfold Bson.of_str.
  rewrite decide_True by (rewrite length_str, Hlen; done).
  unfold Bson.str. rewrite list_ascii_of_string_of_list_ascii.
  by apply fromhex_hexlify.
Qed.

Lemma generate_is_oid k : is_oid (Bson.generate k).
Proof.
  unfold is_oid, Bson.generate. generalize 12%nat. intros w.
  revert k. induction w as [|w IH]; intros k; [by split|].
  destruct (IH (k / 256)%N) as [Hl Hb]. cbn [Bson.N_to_bytes]. split.
  - rewrite length_app, Hl. cbn. lia.
  - apply Forall_app. split; [done|]. constructor; [|done].
    apply N.mod_lt. lia.
Qed.

(** [to_oid] reads back what [str] prints: the string of a twelve-byte id
    parses to that id, and nothing is raised. *)
Theorem to_oid_str (oid : Bson.ObjectId) (db : Database.t) :
  is_oid oid → to_oid (Bson.str oid) db = (db, Return oid).
Proof. intros H. unfold to_oid. by rewrite of_str_str. Qed.

Lemma to_oid_str_witness :
  to_oid (Bson.str (Bson.generate 11)) Database.empty
  = (Database.empty, Return (Bson.generate 11)).
Proof. apply (to_oid_str (Bson.generate 11)). apply generate_is_oid. Defined.

(** A product id that is not 24 characters long is answered with 400
    "Invalid ID" before any collection is read; the database is left as it
    was. *)
Theorem get_product_invalid_id (product_id : string) (db : Database.t) :
  String.length product_id ≠ 24%nat →
  get_product product_id db = (db, Raise (HTTPException 400 "Invalid ID")).
Proof.
  intros H. rewrite get_product_inventory. unfold Bson.of_str.
  by rewrite decide_False.
Qed.

Lemma get_product_invalid_id_witness :
  get_product "42" seeded_db = (seeded_db, Raise (HTTPException 400 "Invalid ID")).
Proof. apply (get_product_invalid_id "42" seeded_db). cbn. lia. Defined.

(** A well-formed id that no product document carries is answered with 404
    "Product not found"; the database is left as it was. *)
Theorem get_product_not_found (product_id : string) (oid : Bson.ObjectId)
    (db : Database.t) :
  Bson.of_str product_id = Some oid →
  (∀ d, d ∈ product db → _id d ≠ oid) →
  get_product product_id db = (db, Raise (HTTPException 404 "Product not found")).
Proof.
  intros Ho Hnone. rewrite get_product_inventory, Ho.
  assert (list_find (λ d : Doc Product.t, _id d = oid) (product db) = None) as ->;
    [|done].
  apply list_find_None, Forall_forall. done.
Qed.

Lemma get_product_not_found_witness :
  get_product "00000000000000000000000b" Database.empty
  = (Database.empty, Raise (HTTPException 404 "Product not found")).
Proof.
  apply (get_product_not_found "00000000000000000000000b" (Bson.generate 11)).
  - vm_compute. reflexivity.
  - intros d Hd. cbn in Hd. by apply elem_of_nil in Hd.
Defined.

(** Asked for a stored product by the string of its id, as [str] prints it,
    [get_product] returns that product (the first with this id), its [_id] as
    that string, and as inventory the quantity of the first inventory record
    of that product id, 0 if there is none. *)
Theorem get_product_by_own_id (d : Doc Product.t) (i : nat) (db : Database.t) :
  is_oid (_id d) →
  product db !! i = Some d →
  (∀ j d', product db !! j = Some d' → (j < i)%nat → _id d' ≠ _id d) →
  get_product (Bson.str (_id d)) db
  = (db, Return (VDict (("_id"%string, VStr (Bson.str (_id d)))
                          :: model_dump (body d)
                          ++ [("inventory"%string,
                               VInt (stock (inventory db) (Bson.str (_id d))))]))).
Proof.
  intros Hid Hi Hfirst. rewrite get_product_inventory, of_str_str by done.
  assert (list_find (λ x : Doc Product.t, _id x = _id d) (product db)
          = Some (i, d)) as ->; [|done].
  apply list_find_Some. split_and!; done.
Qed.

Lemma get_product_by_own_id_witness :
  get_product "00000000000000000000000b" kit_db
  = (kit_db, Return (VDict (("_id"%string, VStr "00000000000000000000000b")
                              :: model_dump kit_product
                              ++ [("inventory"%string, VInt 10)]))).
Proof.
  apply (get_product_by_own_id kit_doc 0 kit_db).
  - apply generate_is_oid.
  - reflexivity.
  - intros j d' _ Hj. lia.
Defined.

(** *** Listing products *)

(** [list_products] never fails and writes nothing: it returns, in store
    order, one dict for every product of the collection handle, whose [_id]
    is the string of the product's id and whose [inventory] is the quantity
    of the first inventory record of that id, 0 if there is none. *)
Theorem list_products_each_own_stock (handle : string) (db : Database.t) :
  ∃ dicts,
    list_products handle db = (db, Return (VList dicts))
    ∧ Forall2
        (λ p v,
           Product.collection_handle (body p) = handle
           ∧ field "_id" (Return v) = Some (VStr (Bson.str (_id p)))
           ∧ field "title" (Return v) = Some (VStr (Product.title (body p)))
           ∧ field "inventory" (Return v)
             = Some (VInt (stock (inventory db) (Bson.str (_id p)))))
        (products_of handle db) dicts.
Proof.
  eexists. split; [apply list_products_inventory|].
  fold (products_of handle db).
  assert (Forall (λ p, Product.collection_handle (body p) = handle)
            (products_of handle db)) as Hall.
  { apply Forall_forall. intros p Hp%list_elem_of_In.
    apply filter_In in Hp as [_ Hp]. by apply bool_decide_eq_true in Hp. }
  induction Hall as [|p ps Hp _ IH]; [constructor|].
  cbn [fmap list_fmap]. constructor; [|exact IH].
  split_and!; [done|reflexivity..].
Qed.

(** A handle that no product carries gives the empty list, not an error. *)
Theorem list_products_unknown_handle (handle : string) (db : Database.t) :
  (∀ d, d ∈ product db → Product.collection_handle (body d) ≠ handle) →
  list_products handle db = (db, Return (VList [])).
Proof.
  intros H. rewrite list_products_inventory.
  assert (List.filter
            (λ d, bool_decide (Product.collection_handle (body d) = handle))
            (product db) = []) as ->; [|done].
  induction (product db) as [|d l IH]; [done|]. cbn.
  rewrite bool_decide_eq_false_2 by (apply H; by left).
  apply IH. intros d' Hd'. apply H. by right.
Qed.

Lemma list_products_unknown_handle_witness :
  list_products "core" kit_db = (kit_db, Return (VList [])).
Proof.
  apply (list_products_unknown_handle "core" kit_db).
  intros d Hd. apply list_elem_of_singleton in Hd. subst d. discriminate.
Defined.

(** *** Config: reading after writing *)

Lemma get_config_head (db : Database.t) :
  get_config db
  = (db, Return (VDict match config db with
                       | [] => [ ("limited_edition_active"%string, VBool false);
                                 ("limited_edition_name"%string,
                                  VStr "Celestial Gaze") ]
                       | doc :: _ => with_str_id doc
                       end)).
Proof.
  unfold get_config, find_one, mbind, M_bind. cbn [get db_config].
  by destruct (config db) as [|doc rest].
Qed.

(** After [toggle_config], [get_config] reads the flag of the request,
    whatever the config collection held; the name is the stored one, or
    "Celestial Gaze" when the document had to be created. *)
Theorem get_config_after_toggle (payload : ConfigToggle.t) (db : Database.t) :
  let answer := snd (get_config (fst (toggle_config payload db))) in
  field "limited_edition_active" answer
  = Some (VBool (ConfigToggle.limited_edition_active payload))
  ∧ field "limited_edition_name" answer
    = Some (VStr match config db with
                 | [] => "Celestial Gaze"
                 | doc :: _ => Config.limited_edition_name (body doc)
                 end).
Proof.
  cbv zeta. rewrite toggle_config_eq, get_config_head. cbn [fst snd].
  destruct (config db) as [|doc rest]; cbn [config set db_config tick];
    by split.
Qed.

(** The last toggle wins: toggling twice leaves the database that the
    second toggle alone would leave.  In particular a repeated toggle
    changes nothing, and no second config document is ever created. *)
Theorem toggle_config_last_wins (p1 p2 : ConfigToggle.t) (db : Database.t) :
  fst (toggle_config p2 (fst (toggle_config p1 db)))
  = fst (toggle_config p2 db).
Proof.
  rewrite !toggle_config_eq. cbn [fst].
  destruct db as [[|doc rest] ? ? ? ? ? n]; reflexivity.
Qed.

(** With several config documents stored, [toggle_config] sets the flag of
    the first one only: the others, the name and the number of documents stay
    as they were. *)
Theorem toggle_config_first_only (payload : ConfigToggle.t) (db : Database.t)
    (doc : Doc Config.t) (rest : list (Doc Config.t)) :
  config db = doc :: rest →
  let db' := fst (toggle_config payload db) in
  config db'
  = {| _id := _id doc;
       body := {| Config.limited_edition_active :=
                    ConfigToggle.limited_edition_active payload;
                  Config.limited_edition_name :=
                    Config.limited_edition_name (body doc) |} |} :: rest
  ∧ counter db' = counter db.
Proof.
  intros E. cbv zeta. rewrite toggle_config_eq, E. by cbn.
Qed.

Lemma toggle_config_first_only_witness :
  let db := fst (toggle_config {| ConfigToggle.limited_edition_active := true |}
                   Database.empty) in
  let db' := fst (toggle_config {| ConfigToggle.limited_edition_active := false |}
                    db) in
  config db'
  = [ {| _id := Bson.generate 0;
         body := {| Config.limited_edition_active := false;
                    Config.limited_edition_name := "Celestial Gaze" |} |} ]
  ∧ counter db' = counter db.
Proof.
  cbv zeta.
  apply (toggle_config_first_only
           {| ConfigToggle.limited_edition_active := false |}
           (fst (toggle_config {| ConfigToggle.limited_edition_active := true |}
                   Database.empty))
           (created_config Database.empty true) []).
  reflexivity.
Defined.

(** *** Reviews: reading after writing *)

Lemma get_reviews_eq (product_id : string) (db : Database.t) :
  get_reviews product_id db = (db, Return (VList (reviews_of product_id db))).
Proof. done. Qed.

(** After a review is added for a product, [get_reviews] of that product
    returns the reviews it returned before followed by the new one, with the
    id [add_review] answered; the reviews of every other product are as
    before. *)
Theorem get_reviews_after_add_review (product_id : string)
    (payload : NewReview.t) (db : Database.t) :
  (1 ≤ NewReview.rating payload ≤ 5)%Z →
  let db' := fst (add_review product_id payload db) in
  snd (get_reviews product_id db')
  = Return (VList (reviews_of product_id db
                     ++ [VDict [ ("_id"%string,
                                  VStr (Bson.str (Bson.generate (counter db))));
                                 ("product_id"%string, VStr product_id);
                                 ("author"%string, VStr (NewReview.author payload));
                                 ("rating"%string, VInt (NewReview.rating payload));
                                 ("content"%string, VStr (NewReview.content payload)) ]]))
  ∧ ∀ other, other ≠ product_id →
      snd (get_reviews other db') = snd (get_reviews other db).
Proof.
  intros H. cbv zeta. rewrite add_review_in_range by done.
  rewrite !get_reviews_eq. cbn [fst snd]. unfold reviews_of.
  cbn [review set db_review tick]. split.
  - rewrite List.filter_app, fmap_app. cbn [List.filter created_review body Review.product_id].
    by rewrite bool_decide_eq_true_2.
  - intros other Hne. rewrite !get_reviews_eq. cbn [snd]. unfold reviews_of.
    cbn [review set db_review tick]. rewrite List.filter_app. cbn [List.filter created_review body Review.product_id].
    rewrite bool_decide_eq_false_2 by done. by rewrite app_nil_r.
Qed.

Lemma get_reviews_after_add_review_witness :
  snd (get_reviews "p" (fst (add_review "p" (review_of 4) Database.empty)))
  = Return (VList [VDict [ ("_id"%string, VStr "000000000000000000000000");
                           ("product_id"%string, VStr "p");
                           ("author"%string, VStr "Ada");
                           ("rating"%string, VInt 4);
                           ("content"%string, VStr "Lovely.") ]]).
Proof.
  destruct (get_reviews_after_add_review "p" (review_of 4) Database.empty)
    as [H _].
  - cbn. lia.
  - exact H.
Defined.

(** A rating outside 1..5 passes the body model but not [Review]: whatever
    the product id and the database, [add_review] raises pydantic's
    [ValidationError], answered with 500, and writes nothing. *)
Theorem add_review_out_of_range_unwritten (product_id : string)
    (payload : NewReview.t) (db : Database.t) :
  (NewReview.rating payload < 1 ∨ 5 < NewReview.rating payload)%Z →
  route (add_review product_id) payload db = (db, Raise ValidationError)
  ∧ status_code (snd (route (add_review product_id) payload db)) = 500%Z.
Proof.
  intros H. unfold route. cbn [model_validate NewReview_model].
  rewrite add_review_out_of_range by lia. done.
Qed.

Lemma add_review_out_of_range_unwritten_witness :
  route (add_review "p") (review_of (-3)) seeded_db
  = (seeded_db, Raise ValidationError)
  ∧ status_code (snd (route (add_review "p") (review_of (-3)) seeded_db)) = 500%Z.
Proof.
  apply (add_review_out_of_range_unwritten "p" (review_of (-3)) seeded_db).
  left. cbn. lia.
Defined.

(** *** Checkout: what it accepts, what it touches, what it takes *)

(** A line item with a quantity below 1 fails the body model: the request is
    answered with 422 before the handler runs, and nothing is read or
    written. *)
Theorem checkout_rejects_quantity_below_1 (order : Order.t) (db : Database.t) :
  (∃ item, item ∈ Order.items order ∧ (OrderItem.quantity item < 1)%Z) →
  route checkout order db = (db, Raise RequestValidationError)
  ∧ status_code (snd (route checkout order db)) = 422%Z.
Proof.
  intros (item & Hin & Hq). unfold route.
  assert (model_validate order = false) as ->; [|done].
  apply not_true_is_false. cbn [model_validate Order_model]. intros H.
  rewrite forallb_forall in H. apply list_elem_of_In, H in Hin.
  cbn in Hin. apply Z.leb_le in Hin. lia.
Qed.

Lemma checkout_rejects_quantity_below_1_witness :
  let order := order_of [line "000000000000000000000003" "The Classic Heirloom" 0] in
  route checkout order seeded_db = (seeded_db, Raise RequestValidationError)
  ∧ status_code (snd (route checkout order seeded_db)) = 422%Z.
Proof.
  cbv zeta. apply checkout_rejects_quantity_below_1. eexists. split.
  - by left.
  - cbn. lia.
Defined.

(** An order without line items passes both loops untouched: it is stored
    and answered with its id, and the inventory is as before. *)
Theorem checkout_empty_order (order : Order.t) (db : Database.t) :
  Order.items order = [] →
  route checkout order db
  = (set db_order
       (Database.order db
          ++ [{| _id := Bson.generate (counter db); body := order |}])
       (tick db),
     Return (VDict [ ("ok"%string, VBool true);
                     ("order_id"%string,
                      VStr (Bson.str (Bson.generate (counter db)))) ])).
Proof.
  intros E. unfold route. cbn [model_validate Order_model]. rewrite E.
  cbn [forallb]. rewrite checkout_passed by by rewrite E.
  rewrite E. cbn [foldl]. cbv zeta. by rewrite set_inventory_same.
Qed.

Lemma checkout_empty_order_witness :
  ∃ db',
    route checkout (order_of []) seeded_db
    = (db', Return (VDict [ ("ok"%string, VBool true);
                            ("order_id"%string,
                             VStr (Bson.str (Bson.generate (counter seeded_db)))) ]))
    ∧ inventory db' = inventory seeded_db.
Proof.
  eexists. split.
  - apply (checkout_empty_order (order_of []) seeded_db). reflexivity.
  - reflexivity.
Defined.

Lemma deduct_all_pids items inv : pids (foldl deduct inv items) = pids inv.
Proof.
  revert inv. induction items as [|item items IH]; intros inv; [done|].
  cbn [foldl]. by rewrite IH, deduct_pids.
Qed.

(** Whatever the order, [checkout] writes to two collections only.  The
    config, collection, product and review collections stay as they are; the
    inventory keeps its records, their ids and their product ids, in the same
    order (only quantities move); and the order collection is either
    unchanged or longer by the one document of this order. *)
Theorem checkout_frame (order : Order.t) (db : Database.t) :
  let db' := fst (checkout order db) in
  config db' = config db ∧ collection db' = collection db
  ∧ product db' = product db ∧ review db' = review db
  ∧ (_id <$> inventory db') = (_id <$> inventory db)
  ∧ pids (inventory db') = pids (inventory db)
  ∧ (Database.order db' = Database.order db
     ∨ Database.order db'
       = Database.order db
         ++ [{| _id := Bson.generate (counter db); body := order |}]).
Proof.
  cbv zeta.
  destruct (forallb (in_stock (inventory db)) (Order.items order)) eqn:E.
  - rewrite checkout_passed by done.
    cbn [fst config collection product review inventory Database.order
         set db_order db_inventory tick].
    rewrite deduct_all_ids, deduct_all_pids. split_and!; try done. by right.
  - destruct (checkout_refused _ _ E) as (? & ? & ? & _ & _ & _ & ->).
    cbn [fst]. split_and!; try done. by left.
Qed.

Lemma total_stock_insert inv i d d' :
  inv !! i = Some d →
  total_stock (<[i := d']> inv)
  = (total_stock inv - Inventory.quantity (body d)
     + Inventory.quantity (body d'))%Z.
Proof.
  revert i. induction inv as [|x inv IH]; intros [|i] H; simplify_eq/=.
  - lia.
  - fold (total_stock (<[i:=d']> inv)). fold (total_stock inv).
    rewrite (IH i) by done. lia.
Qed.

Lemma total_stock_deduct inv item :
  first_index inv (OrderItem.product_id item) ≠ None →
  total_stock (deduct inv item)
  = (total_stock inv - OrderItem.quantity item)%Z.
Proof.
  unfold first_index, deduct.
  destruct (list_find _ inv) as [[i d]|] eqn:E; [|done]. intros _.
  apply list_find_Some in E as (Hi & _).
  rewrite (total_stock_insert _ _ d) by done. cbn. lia.
Qed.

Lemma total_stock_deduct_all items inv :
  Forall (λ item, first_index inv (OrderItem.product_id item) ≠ None) items →
  total_stock (foldl deduct inv items)
  = (total_stock inv - order_quantity items)%Z.
Proof.
  revert inv. induction items as [|item items IH]; intros inv H.
  - cbn [foldl order_quantity foldr]. lia.
  - apply Forall_cons in H as [Hi H]. cbn [foldl order_quantity foldr].
    fold (order_quantity items).
    rewrite IH.
    2:{ eapply Forall_impl; [exact H|]. intros x Hx.
        by rewrite first_index_deduct. }
    rewrite total_stock_deduct by done. lia.
Qed.

Lemma in_stock_first_index inv item :
  in_stock inv item = true →
  first_index inv (OrderItem.product_id item) ≠ None.
Proof.
  unfold in_stock, first_record, first_index.
  by destruct (list_find _ inv) as [[??]|].
Qed.

(** A checkout that succeeds takes from the inventory exactly what the order
    asks: the sum of all stored quantities drops by the sum of the quantities
    of the line items, also when several of them name one product. *)
Theorem checkout_conserves_stock (order : Order.t) (db : Database.t) :
  status_code (snd (checkout order db)) = 200%Z →
  total_stock (inventory (fst (checkout order db)))
  = (total_stock (inventory db) - order_quantity (Order.items order))%Z.
Proof.
  destruct (forallb (in_stock (inventory db)) (Order.items order)) eqn:E.
  - intros _. rewrite checkout_passed by done.
    cbn [fst inventory set db_order db_inventory tick].
    apply total_stock_deduct_all, Forall_forall.
    intros item Hin%list_elem_of_In. apply in_stock_first_index.
    rewrite forallb_forall in E. by apply E.
  - destruct (checkout_refused _ _ E) as (? & ? & ? & _ & _ & _ & ->).
    cbn. lia.
Qed.

Lemma checkout_conserves_stock_witness :
  total_stock (inventory (fst (checkout heirloom_twice seeded_db)))
  = (total_stock (inventory seeded_db)
     - order_quantity (Order.items heirloom_twice))%Z.
Proof.
  apply (checkout_conserves_stock heirloom_twice seeded_db).
  vm_compute. reflexivity.
Defined.

Lemma checkout_nonneg_witness :
  Forall (λ q, 0 ≤ q)%Z (quantities (fst (checkout heirloom_order seeded_db))).
Proof.
  apply (checkout_nonneg heirloom_order seeded_db).
  - reflexivity.
  - intros item Hin. apply list_elem_of_singleton in Hin. subst item.
    eexists. split; [vm_compute; reflexivity|]. vm_compute. discriminate.
  - unfold quantities. rewrite seeded_inventory. cbn.
    repeat constructor; lia.
Defined.

(** *** Seeding: what it writes *)

(** [seed] writes only into sections it finds empty, and never into reviews
    or orders: a config collection with a document is left alone, so is a
    collection collection, and with a product stored neither products nor
    inventory records are added, even when the inventory is empty. *)
Theorem seed_writes_only_empty_sections (db : Database.t) :
  let db' := fst (seed db) in
  review db' = review db
  ∧ Database.order db' = Database.order db
  ∧ (config db ≠ [] → config db' = config db)
  ∧ (collection db ≠ [] → collection db' = collection db)
  ∧ (product db ≠ [] → product db' = product db ∧ inventory db' = inventory db).
Proof.
  cbv zeta. destruct (seed_guards db) as (Hc & Hl & Hp).
  split_and!; try done;
    destruct db as [[|c cs] [|l ls] [|p ps] inv rev ord n];
    seed_compute; reflexivity.
Qed.

(** Seeding an empty product collection stores the five demo products and,
    after the inventory already there, one inventory record for each of
    them, in the same order, whose product_id is the string of the product's
    id: 50 of the core product, 20 of each celestial one, 10 of the kit. *)
Theorem seed_products_with_inventory (db : Database.t) :
  product db = [] →
  ∃ ps invs,
    product (fst (seed db)) = ps
    ∧ inventory (fst (seed db)) = inventory db ++ invs
    ∧ Forall2 (λ p i, Inventory.product_id (body i) = Bson.str (_id p)) ps invs
    ∧ (λ p, Product.title (body p)) <$> ps
      = [ "The Classic Heirloom"; "The Sapphire Serenity"; "The Amethyst Aura";
          "The Rose Gold Reverie"; "The Celestial Kit" ]%string
    ∧ (λ i, Inventory.quantity (body i)) <$> invs = [50; 20; 20; 20; 10]%Z.
Proof.
  destruct db as [[|c cs] [|l ls] ps0 inv rev ord n]; cbn [product];
    intros ->; eexists _, _;
    (split; [reflexivity|]);
    (split; [cbv -[Bson.generate Bson.str N.succ app];
             rewrite <- !app_assoc; cbn [app]; reflexivity|]);
    (split; [seed_compute; repeat constructor|]);
    split; reflexivity.
Qed.

Lemma seed_products_with_inventory_witness :
  ∃ ps invs,
    product seeded_db = ps
    ∧ inventory seeded_db = invs
    ∧ Forall2 (λ p i, Inventory.product_id (body i) = Bson.str (_id p)) ps invs.
Proof.
  destruct (seed_products_with_inventory Database.empty)
    as (ps & invs & Hp & Hi & Hf & _).
  - reflexivity.
  - exists ps, invs. split; [exact Hp|]. split; [exact Hi | exact Hf].
Defined.

Lemma total_requested_unnamed pid items :
  (∀ item, item ∈ items → OrderItem.product_id item ≠ pid) →
  total_requested pid items = 0%Z.
Proof.
  induction items as [|x items IH]; intros H; [done|]. cbn.
  fold (total_requested pid items).
  rewrite decide_False by (apply H; by left).
  apply IH. intros item Hin. apply H. by right.
Qed.

Lemma first_index_deduct_all items inv pid :
  first_index (foldl deduct inv items) pid = first_index inv pid.
Proof. by rewrite !first_index_pids, deduct_all_pids. Qed.

(** After a checkout that succeeds, the stock the handlers read for any
    product id (in a later checkout, [get_product] or [list_products]) is the
    stock read before less everything the order asked of that product. *)
Theorem checkout_then_stock (order : Order.t) (db : Database.t) (pid : string) :
  status_code (snd (checkout order db)) = 200%Z →
  stock (inventory (fst (checkout order db))) pid
  = (stock (inventory db) pid - total_requested pid (Order.items order))%Z.
Proof.
  destruct (forallb (in_stock (inventory db)) (Order.items order)) eqn:E.
  2:{ destruct (checkout_refused _ _ E) as (? & ? & ? & _ & _ & _ & ->).
      cbn. lia. }
  intros _. rewrite checkout_passed by done.
  cbn [fst inventory set db_order db_inventory tick].
  pose proof (first_index_deduct_all (Order.items order) (inventory db) pid) as Hidx.
  unfold stock, first_record. unfold first_index in Hidx.
  destruct (list_find _ (inventory db)) as [[i d]|] eqn:Ef.
  - destruct (list_find _ (foldl deduct _ _)) as [[i' d']|] eqn:Ef'; [|done].
    cbn in Hidx. injection Hidx as ->.
    pose proof Ef as (Hi & Hp & _)%list_find_Some.
    apply list_find_Some in Ef' as (Hi' & _).
    rewrite deduct_all_lookup, Hi in Hi'. cbn in Hi'.
    injection Hi' as <-.
    rewrite (share_total _ _ d _ Hi), Hp.
    rewrite decide_True; [cbn; lia|].
    unfold first_index. by rewrite Ef.
  - destruct (list_find _ (foldl deduct _ _)) as [[i' d']|] eqn:Ef'; [done|].
    cbn. rewrite total_requested_unnamed; [done|].
    intros item Hin Hpid.
    rewrite forallb_forall in E. apply list_elem_of_In, E in Hin.
    apply in_stock_first_index in Hin. unfold first_index in Hin.
    rewrite Hpid, Ef in Hin. done.
Qed.

Lemma checkout_then_stock_witness :
  stock (inventory (fst (checkout heirloom_twice seeded_db)))
    "000000000000000000000003"
  = (stock (inventory seeded_db) "000000000000000000000003"
     - total_requested "000000000000000000000003" (Order.items heirloom_twice))%Z.
Proof.
  apply (checkout_then_stock heirloom_twice seeded_db).
  vm_compute. reflexivity.
Defined.
